(** * The cart store of the storefront, and its persisted mirror

    A shallow embedding of the shopping cart of the storefront:
    - [ensureNumber] and [sanitizeCartItem] of [src/app/lib/utils.ts];
    - the cart provider [CartProvider], which the pages import from
      [contexts/CartContext] and which is the second module of
      [src/app/contexts/NotificationContext.tsx]: its load and save
      effects, [addToCart], [removeFromCart], [updateQuantity],
      [clearCart], [totalPrice] and [itemCount].

    TypeScript's types are erased when the program runs, and the sanitising
    functions exist to repair values that left their declared type.  The
    values that reach them are therefore JavaScript values ([value]); a line
    of the cart ([CartItem]) is kept at its declared type, and a value that
    would leave that type ends the modelled run with [Untyped]. *)

From Stdlib Require Import Ascii QArith Qreduction Lqa.
From stdpp Require Import gmap strings list.

#[local] Set Warnings "-register-all".
#[local] Open Scope Z_scope.

(** ** JavaScript numbers

    A finite number is a rational: the model computes with exact values
    where the program rounds to a double, and it has one zero where the
    program has two.  The two agree on the whole numbers up to 2^53 and on
    what [Math.min] and the comparisons do; on greater numbers and on
    fractions the program's sums, products and quotients are rounded, and
    beyond the greatest double they are an infinity.  The finite numbers
    that the operations below compute are in lowest terms. *)

Inductive number : Type :=
| NaN
| PosInf
| NegInf
| Fin (q : Q).

Definition int (z : Z) : number := Fin (inject_Z z).

Definition isNaN (n : number) : bool :=
  match n with NaN => true | _ => false end.

Definition is_zero (n : number) : bool :=
  match n with Fin q => Qeq_bool q 0 | _ => false end.

(** [a === b] on two numbers. *)
Definition num_eqb (a b : number) : bool :=
  match a, b with
  | PosInf, PosInf | NegInf, NegInf => true
  | Fin x, Fin y => Qeq_bool x y
  | _, _ => false
  end.

(** [a <= b] on two numbers: false as soon as one of them is [NaN]. *)
Definition num_leb (a b : number) : bool :=
  match a, b with
  | NaN, _ | _, NaN => false
  | NegInf, _ | _, PosInf => true
  | _, NegInf | PosInf, _ => false
  | Fin x, Fin y => Qle_bool x y
  end.

(** [a < b] on two numbers. *)
Definition num_ltb (a b : number) : bool :=
  match a, b with
  | NaN, _ | _, NaN => false
  | _, NegInf | PosInf, _ => false
  | NegInf, _ | _, PosInf => true
  | Fin x, Fin y => negb (Qle_bool y x)
  end.

(** [a + b] on two numbers. *)
Definition num_add (a b : number) : number :=
  match a, b with
  | NaN, _ | _, NaN => NaN
  | PosInf, NegInf | NegInf, PosInf => NaN
  | PosInf, _ | _, PosInf => PosInf
  | NegInf, _ | _, NegInf => NegInf
  | Fin x, Fin y => Fin (Qred (x + y))
  end.

Definition num_neg (a : number) : number :=
  match a with
  | NaN => NaN
  | PosInf => NegInf
  | NegInf => PosInf
  | Fin x => Fin (Qred (- x))
  end.

(** The sign of a number that is not [NaN]: [Lt], [Eq] or [Gt] as it is
    below, at or above zero. *)
Definition num_sign (a : number) : comparison :=
  match a with
  | NaN => Eq
  | PosInf => Gt
  | NegInf => Lt
  | Fin x => (x ?= 0)%Q
  end.

(** [a * b] on two numbers: an infinity times zero is [NaN]. *)
Definition num_mul (a b : number) : number :=
  match a, b with
  | NaN, _ | _, NaN => NaN
  | Fin x, Fin y => Fin (Qred (x * y))
  | _, _ =>
      match num_sign a, num_sign b with
      | Eq, _ | _, Eq => NaN
      | Gt, Gt | Lt, Lt => PosInf
      | Gt, Lt | Lt, Gt => NegInf
      end
  end.

(** [Math.min(a, b)]. *)
Definition Math_min (a b : number) : number :=
  match a, b with
  | NaN, _ | _, NaN => NaN
  | _, _ => if num_leb a b then a else b
  end.

(** ** [parseFloat]

    The longest prefix of the string, after its leading white space, that
    is a decimal literal: an optional sign, then [Infinity] or digits with
    an optional fraction and an optional exponent.  A string is the string
    of the bytes of its UTF-8 encoding.  The white space of the program is
    the tabulation, the line feed, the vertical tabulation, the form feed,
    the carriage return and the space, each one byte, and U+00A0, U+1680,
    U+2000 to U+200A, U+2028, U+2029, U+202F, U+205F, U+3000 and U+FEFF,
    of two or three bytes.  The number read is the exact value of the
    literal, which the program rounds to a double. *)

(** The white space of one byte. *)
Definition is_white_space (c : ascii) : bool :=
  let n := Z.of_N (N_of_ascii c) in
  ((9 <=? n) && (n <=? 13)) || (n =? 32).

(** The white space of two bytes: U+00A0. *)
Definition is_white_space2 (c1 c2 : ascii) : bool :=
  (Z.of_N (N_of_ascii c1) =? 194) && (Z.of_N (N_of_ascii c2) =? 160).

(** The white space of three bytes: U+1680; U+2000 to U+200A, U+2028,
    U+2029 and U+202F; U+205F; U+3000; U+FEFF. *)
Definition is_white_space3 (c1 c2 c3 : ascii) : bool :=
  let n1 := Z.of_N (N_of_ascii c1) in
  let n2 := Z.of_N (N_of_ascii c2) in
  let n3 := Z.of_N (N_of_ascii c3) in
  ((n1 =? 225) && (n2 =? 154) && (n3 =? 128))
  || ((n1 =? 226) && (n2 =? 128)
      && (((128 <=? n3) && (n3 <=? 138)) || (n3 =? 168) || (n3 =? 169) || (n3 =? 175)))
  || ((n1 =? 226) && (n2 =? 129) && (n3 =? 159))
  || ((n1 =? 227) && (n2 =? 128) && (n3 =? 128))
  || ((n1 =? 239) && (n2 =? 187) && (n3 =? 191)).

Fixpoint trim_start (s : string) : string :=
  match s with
  | String c1 r1 =>
      if is_white_space c1 then trim_start r1
      else
        match r1 with
        | String c2 r2 =>
            if is_white_space2 c1 c2 then trim_start r2
            else
              match r2 with
              | String c3 r3 =>
                  if is_white_space3 c1 c2 c3 then trim_start r3 else s
              | EmptyString => s
              end
        | EmptyString => s
        end
  | EmptyString => s
  end.

Definition digit_of (c : ascii) : option Z :=
  let n := Z.of_N (N_of_ascii c) in
  if (48 <=? n) && (n <=? 57) then Some (n - 48) else None.

(** The digits a string starts with, and what follows them. *)
Fixpoint read_digits (s : string) : list Z * string :=
  match s with
  | String c r =>
      match digit_of c with
      | Some d => let '(ds, rest) := read_digits r in (d :: ds, rest)
      | None => ([], s)
      end
  | EmptyString => ([], s)
  end.

Definition digits_value (ds : list Z) : Z :=
  fold_left (fun acc d => 10 * acc + d) ds 0.

(** The value of the exponent part a string starts with; 0 when it starts
    with none ([e] with no digit after it is no exponent part). *)
Definition read_exponent (s : string) : Z :=
  match s with
  | String c r =>
      if (Ascii.eqb c "e" || Ascii.eqb c "E")%bool then
        let '(negative, r') :=
          match r with
          | String "-" r'' => (true, r'')
          | String "+" r'' => (false, r'')
          | _ => (false, r)
          end in
        match read_digits r' with
        | ([], _) => 0
        | (ds, _) => if negative then - digits_value ds else digits_value ds
        end
      else 0
  | EmptyString => 0
  end.

(** [m] times ten to the [e]. *)
Definition scale10 (m e : Z) : Q :=
  if 0 <=? e then inject_Z (m * 10 ^ e)
  else Qred (Qmake m (Z.to_pos (10 ^ (- e)))).

Definition read_unsigned (s : string) : number :=
  if String.prefix "Infinity" s then PosInf
  else
    let '(whole, r1) := read_digits s in
    let '(frac, r2) :=
      match r1 with
      | String "." r => read_digits r
      | _ => ([], r1)
      end in
    match whole, frac with
    | [], [] => NaN
    | _, _ =>
        Fin (scale10 (digits_value (whole ++ frac))
                     (read_exponent r2 - Z.of_nat (length frac)))
    end.

Definition parseFloat (s : string) : number :=
  match trim_start s with
  | String "-" r => num_neg (read_unsigned r)
  | String "+" r => read_unsigned r
  | t => read_unsigned t
  end.

(** ** JavaScript values *)

Inductive value : Type :=
| Undefined
| Null
| Bool (b : bool)
| Num (n : number)
| Str (s : string)
| Arr (elems : list value)
| Obj (props : gmap string value).

Abbreviation object := (gmap string value).

(** Truthiness: what [if (v)] and [v || d] test. *)
Definition truthy (v : value) : bool :=
  match v with
  | Undefined | Null => false
  | Bool b => b
  | Num n => negb (isNaN n || is_zero n)
  | Str s => negb (String.eqb s "")
  | Arr _ | Obj _ => true
  end.

(** [v || d]. *)
Definition js_or (v d : value) : value := if truthy v then v else d.

(** [n === v] where [n] is a number: false unless [v] is a number too. *)
Definition strict_eq_num (n : number) (v : value) : bool :=
  match v with Num m => num_eqb n m | _ => false end.

(** ** Outcomes

    A piece of the program returns, throws, or hands a line of the cart a
    value outside the line's declared type: a string or an object where
    [CartItem] declares a number, a number where it declares a string.
    The typed model of the cart stops there ([Untyped]). *)

Inductive exn : Type :=
| SyntaxError
| TypeError.

Inductive outcome (A : Type) : Type :=
| Returns (a : A)
| Throws (e : exn)
| Untyped.

Arguments Returns {A} a.
Arguments Throws {A} e.
Arguments Untyped {A}.

#[export] Instance outcome_ret : MRet outcome := fun A a => Returns a.

#[export] Instance outcome_bind : MBind outcome := fun A B f m =>
  match m with
  | Returns a => f a
  | Throws e => Throws e
  | Untyped => Untyped
  end.

(** [l.map(f)] when [f] may throw: the elements are visited in order and
    the first one that does not return ends the loop. *)
Fixpoint map_outcome {A B : Type} (f : A -> outcome B) (l : list A)
  : outcome (list B) :=
  match l with
  | [] => Returns []
  | x :: l' => y ← f x; ys ← map_outcome f l'; Returns (y :: ys)
  end.

(** [v.k], for the property names the cart reads ([id], [name], [price],
    [quantity], [fileName], [stock], [sellerId]): reading a property of
    [undefined] or [null] throws, and a number, a boolean, a string or an
    array has none of these properties. *)
Definition get (v : value) (k : string) : outcome value :=
  match v with
  | Undefined | Null => Throws TypeError
  | Obj props => Returns (default Undefined (props !! k))
  | Bool _ | Num _ | Str _ | Arr _ => Returns Undefined
  end.

(** The value at its declared type [number]. *)
Definition as_number (v : value) : outcome number :=
  match v with Num n => Returns n | _ => Untyped end.

(** The value at its declared type [string]. *)
Definition as_string (v : value) : outcome string :=
  match v with Str s => Returns s | _ => Untyped end.

(** ** [src/app/lib/utils.ts] *)

Definition ensureNumber (v : value) : value :=
  match v with
  | Str s =>
      let parsed := parseFloat s in
      Num (if isNaN parsed then int 0 else parsed)
  | _ => v
  end.

Record CartItem : Type := {
  id : number;
  name : string;
  price : number;
  quantity : number;
  fileName : string;
  stock : number;
  sellerId : number
}.

Definition sanitizeCartItem (item : value) : outcome CartItem :=
  item_id ← get item "id";
  id' ← as_number (ensureNumber (js_or item_id (Num (int 0))));
  item_name ← get item "name";
  name' ← as_string (js_or item_name (Str ""));
  item_price ← get item "price";
  price' ← as_number (ensureNumber (js_or item_price (Num (int 0))));
  item_quantity ← get item "quantity";
  quantity' ← as_number (ensureNumber (js_or item_quantity (Num (int 1))));
  item_fileName ← get item "fileName";
  fileName' ← as_string (js_or item_fileName (Str ""));
  item_stock ← get item "stock";
  stock' ← as_number (ensureNumber (js_or item_stock (Num (int 0))));
  item_sellerId ← get item "sellerId";
  sellerId' ← as_number (ensureNumber (js_or item_sellerId (Num (int 0))));
  Returns {| id := id'; name := name'; price := price'; quantity := quantity';
             fileName := fileName'; stock := stock'; sellerId := sellerId' |}.

(** ** The cart provider: the state updaters *)

(** [{ ...item, quantity: q }]. *)
Definition with_quantity (item : CartItem) (q : number) : CartItem :=
  {| id := item.(id); name := item.(name); price := item.(price);
     quantity := q; fileName := item.(fileName); stock := item.(stock);
     sellerId := item.(sellerId) |}.

(** [product.k] of an object. *)
Definition prop (product : object) (k : string) : value :=
  default Undefined (product !! k).

(** What [v] adds in [n + v] when the sum is a number: [null] and the
    booleans are converted to numbers, [undefined] to [NaN].  With a string,
    an array or an object, [+] concatenates and the sum is a string. *)
Definition addend (v : value) : option number :=
  match v with
  | Num n => Some n
  | Undefined => Some NaN
  | Null => Some (int 0)
  | Bool b => Some (int (if b then 1 else 0))
  | Str _ | Arr _ | Obj _ => None
  end.

(** [n + v] throws a [TypeError] when [v] cannot be converted to a
    primitive value.  The objects here have the properties they own and
    those of [Object.prototype], of which [valueOf] returns the object and
    [toString] a string; a property that an object owns is a value, which
    cannot be called.  So an object that owns a [toString] cannot be
    converted.  An array is converted by joining the strings of its
    elements: it cannot be when one of them cannot. *)
Fixpoint no_primitive (v : value) : bool :=
  match v with
  | Arr elems => existsb no_primitive elems
  | Obj props => bool_decide (is_Some (props !! "toString"))
  | Undefined | Null | Bool _ | Num _ | Str _ => false
  end.

(** The updater that [addToCart(product, quantity)] hands to
    [setCartItems].  The argument [quantity] is [qty] here, [Undefined]
    when the caller leaves it out; the parameter's default is 1.  When the
    product has a line and the quantity is a string, an array or an object,
    the sum either throws or is a string, which the line then holds where
    [CartItem] declares a number. *)
Definition addToCart (product : object) (qty : value)
    (prevItems : list CartItem) : outcome (list CartItem) :=
  let qty := match qty with Undefined => Num (int 1) | _ => qty end in
  let existingItem :=
    List.find (fun item => strict_eq_num item.(id) (prop product "id")) prevItems in
  match existingItem with
  | Some _ =>
      match addend qty with
      | Some n =>
          Returns
            (map (fun item =>
                    if strict_eq_num item.(id) (prop product "id")
                    then with_quantity item (num_add item.(quantity) n)
                    else item)
                 prevItems)
      | None => if no_primitive qty then Throws TypeError else Untyped
      end
  | None =>
      sanitizedProduct ← sanitizeCartItem (Obj (<["quantity" := qty]> product));
      Returns (prevItems ++ [sanitizedProduct])
  end.

(** The updater that [removeFromCart(productId)] hands to
    [setCartItems]. *)
Definition removeFromCart (productId : number) (prevItems : list CartItem)
  : list CartItem :=
  List.filter (fun item => negb (num_eqb item.(id) productId)) prevItems.

(** [updateQuantity(productId, quantity)], with [qty] for [quantity]: the
    updater it hands to [setCartItems], or that of [removeFromCart]. *)
Definition updateQuantity (productId qty : number)
    (prevItems : list CartItem) : list CartItem :=
  if num_leb qty (int 0) then removeFromCart productId prevItems
  else
    map (fun item =>
           if num_eqb item.(id) productId
           then with_quantity item (Math_min qty item.(stock))
           else item)
        prevItems.

(** [ensureNumber(item.price)] is [item.price]: the price of a line is a
    number, which [ensureNumber] returns as it is. *)
Definition totalPrice (cartItems : list CartItem) : number :=
  fold_left (fun total item => num_add total (num_mul item.(price) item.(quantity)))
            cartItems (int 0).

Definition itemCount (cartItems : list CartItem) : number :=
  fold_left (fun count item => num_add count item.(quantity)) cartItems (int 0).

(** ** The persisted mirror

    [localStorage] holds strings.  A stored string is kept here by what
    [JSON.parse] makes of it: a string it rejects ([NotJson], of which only
    the emptiness is looked at, by [if (savedCart)]), or the JSON text of a
    value ([Json]).  That [JSON.parse] gives back the value
    [JSON.stringify] wrote is thereby part of the model, not a result of
    it: what is modelled of the two is the value they exchange. *)

Inductive text : Type :=
| NotJson (s : string)
| Json (v : value).

Definition JSON_parse (t : text) : outcome value :=
  match t with
  | NotJson _ => Throws SyntaxError
  | Json v => Returns v
  end.

(** A string is truthy unless it is empty, and no JSON text is empty. *)
Definition text_truthy (t : text) : bool :=
  match t with
  | NotJson s => negb (String.eqb s "")
  | Json _ => true
  end.

(** [JSON.stringify] writes [null] for a number that is not finite. *)
Definition json_number (n : number) : value :=
  match n with
  | Fin _ => Num n
  | NaN | PosInf | NegInf => Null
  end.

Definition json_item (item : CartItem) : value :=
  Obj (list_to_map
         [("id", json_number item.(id));
          ("name", Str item.(name));
          ("price", json_number item.(price));
          ("quantity", json_number item.(quantity));
          ("fileName", Str item.(fileName));
          ("stock", json_number item.(stock));
          ("sellerId", json_number item.(sellerId))]).

(** [JSON.stringify(cartItems)]. *)
Definition JSON_stringify (cartItems : list CartItem) : text :=
  Json (Arr (map json_item cartItems)).

(** [data.map(item => sanitizeCartItem(item))]: only an array has [map]. *)
Definition sanitizeCartData (data : value) : outcome (list CartItem) :=
  match data with
  | Arr elems => map_outcome sanitizeCartItem elems
  | _ => Throws TypeError
  end.

(** The provider: its state [cartItems] and the [cart] key of
    [localStorage] ([None] when the key is absent). *)
Record provider : Type := {
  cartItems : list CartItem;
  localStorage : option text
}.

(** The effect that loads the cart when the provider mounts. *)
Definition load_effect (p : provider) : outcome provider :=
  match p.(localStorage) with
  | Some savedCart =>
      if text_truthy savedCart then
        match parsedCart ← JSON_parse savedCart; sanitizeCartData parsedCart with
        | Returns sanitizedCart =>
            Returns {| cartItems := sanitizedCart; localStorage := p.(localStorage) |}
        | Throws _ =>
            Returns {| cartItems := p.(cartItems); localStorage := None |}
        | Untyped => Untyped
        end
      else Returns p
  | None => Returns p
  end.

(** The effect that saves the cart whenever [cartItems] changes. *)
Definition save_effect (p : provider) : provider :=
  {| cartItems := p.(cartItems);
     localStorage := Some (JSON_stringify p.(cartItems)) |}.

(** Mounting the provider over a stored [cart] key.  The state starts
    empty and the two effects run in the order they are declared.  The save
    effect of this first render writes the empty array; when the load
    effect has set the state, the render that follows runs the save effect
    again, on the loaded lines.  Either way the key ends with the text of
    [cartItems]. *)
Definition mount (stored : option text) : outcome provider :=
  loaded ← load_effect {| cartItems := []; localStorage := stored |};
  Returns (save_effect loaded).

(** [clearCart()]: the state is set to the empty array and the key is
    removed. *)
Definition clearCart (p : provider) : provider :=
  {| cartItems := []; localStorage := None |}.

(** What the rest of the application can ask of the provider. *)
Inductive action : Type :=
| AddToCart (product : object) (qty : value)
| RemoveFromCart (productId : number)
| UpdateQuantity (productId qty : number)
| ClearCart.

(** The state that an action's handler sets. *)
Definition update (a : action) (prevItems : list CartItem)
  : outcome (list CartItem) :=
  match a with
  | AddToCart product qty => addToCart product qty prevItems
  | RemoveFromCart productId => Returns (removeFromCart productId prevItems)
  | UpdateQuantity productId qty => Returns (updateQuantity productId qty prevItems)
  | ClearCart => Returns []
  end.

(** The handler of an action, on the provider. *)
Definition handle (a : action) (p : provider) : outcome provider :=
  match a with
  | ClearCart => Returns (clearCart p)
  | _ =>
      items ← update a p.(cartItems);
      Returns {| cartItems := items; localStorage := p.(localStorage) |}
  end.

(** An action, from the call of its handler to the end of the render it
    causes: every handler sets the state to a new array, so the save
    effect runs after each. *)
Definition dispatch (a : action) (p : provider) : outcome provider :=
  handled ← handle a p;
  Returns (save_effect handled).

(** A sequence of actions, each on the state the one before has left. *)
Fixpoint updates (actions : list action) (items : list CartItem)
  : outcome (list CartItem) :=
  match actions with
  | [] => Returns items
  | a :: rest => items' ← update a items; updates rest items'
  end.

Fixpoint dispatches (actions : list action) (p : provider) : outcome provider :=
  match actions with
  | [] => Returns p
  | a :: rest => p' ← dispatch a p; dispatches rest p'
  end.


(** ** Vocabulary of the properties *)

(** One numeric field of the sanitised line: [ensureNumber(v || d)]. *)
Definition numeric_field (v : value) (d : Z) : outcome number :=
  as_number (ensureNumber (js_or v (Num (int d)))).

(** One string field of the sanitised line: [v || '']. *)
Definition string_field (v : value) : outcome string :=
  as_string (js_or v (Str "")).

(** No two lines of the collection have the same id, ids compared as the
    program compares them, with [===]. *)
Fixpoint distinct (ids : list number) : bool :=
  match ids with
  | [] => true
  | n :: rest => forallb (fun m => negb (num_eqb n m)) rest && distinct rest
  end.

Definition unique_ids (items : list CartItem) : bool :=
  distinct (map id items).

(** The product's id is a number, and not [NaN]. *)
Definition number_id (product : object) : bool :=
  match prop product "id" with
  | Num n => negb (isNaN n)
  | _ => false
  end.

Definition is_number (v : value) : bool :=
  match v with Num _ => true | _ => false end.

Definition is_string (v : value) : bool :=
  match v with Str _ => true | _ => false end.

Definition is_absent (v : value) : bool :=
  match v with Undefined => true | _ => false end.

(** The product has its declared type, [Omit<CartItem, 'quantity'>]. *)
Definition declared_product (product : object) : bool :=
  is_number (prop product "id")
  && is_string (prop product "name")
  && is_number (prop product "price")
  && (is_string (prop product "fileName") || is_absent (prop product "fileName"))
  && is_number (prop product "stock")
  && (is_number (prop product "sellerId") || is_absent (prop product "sellerId")).

(** The arguments of an action have their declared types; those of
    [removeFromCart] and [updateQuantity] have them by their types here. *)
Definition declared (a : action) : bool :=
  match a with
  | AddToCart product qty => declared_product product && (is_number qty || is_absent qty)
  | RemoveFromCart _ | UpdateQuantity _ _ | ClearCart => true
  end.

(** The calls [addToCart(product, quantity)] of a list, as actions. *)
Definition adds (calls : list (object * value)) : list action :=
  map (fun call => AddToCart call.1 call.2) calls.

(** The value is a number, and at least 1. *)
Definition at_least_one (v : value) : bool :=
  match v with Num n => num_leb (int 1) n | _ => false end.

(** The arguments under which a quantity stays at 1 or above: a product
    is added with a stock of at least 1 and a quantity that is left out or
    at least 1, and a quantity is set to at most 0 or at least 1. *)
Definition in_range (a : action) : bool :=
  match a with
  | AddToCart product qty =>
      (is_absent qty || at_least_one qty) && at_least_one (prop product "stock")
  | UpdateQuantity _ q => num_leb q (int 0) || num_leb (int 1) q
  | RemoveFromCart _ | ClearCart => true
  end.

(** What the quantities and stocks of a collection keep under the actions
    that are [in_range]: both at least 1 in every line. *)
Definition stocked (item : CartItem) : Prop :=
  num_leb (int 1) item.(quantity) = true /\ num_leb (int 1) item.(stock) = true.

(** A value from which the sanitiser gets no number: it is absent or
    [null], it is [NaN], or it is a string in which [parseFloat] finds no
    number. *)
Definition unusable (v : value) : bool :=
  match v with
  | Undefined | Null => true
  | Num n => isNaN n
  | Str s => isNaN (parseFloat s)
  | Bool _ | Arr _ | Obj _ => false
  end.

(** A string that is not empty. *)
Definition is_text (v : value) : bool :=
  match v with Str s => negb (String.eqb s "") | _ => false end.

(** A value the sanitiser turns into a number: a number, a string, [null]
    or an absent value. *)
Definition repairable (v : value) : bool :=
  match v with
  | Undefined | Null | Num _ | Str _ => true
  | Bool _ | Arr _ | Obj _ => false
  end.

(** A value the sanitiser turns into a string: a string, [null] or an
    absent value. *)
Definition nameable (v : value) : bool :=
  match v with
  | Undefined | Null | Str _ => true
  | Bool _ | Num _ | Arr _ | Obj _ => false
  end.


(** The rational is written in lowest terms, as the model keeps the
    finite numbers it computes. *)
Definition lowest_terms (q : Q) : bool :=
  (Qnum (Qred q) =? Qnum q) && (Qden (Qred q) =? Qden q)%positive.

Definition finite (n : number) : bool :=
  match n with
  | Fin q => lowest_terms q
  | NaN | PosInf | NegInf => false
  end.

(** A line that the persisted text gives back as it is: its numbers are
    finite and its quantity is not zero. *)
Definition storable (item : CartItem) : bool :=
  finite item.(id) && finite item.(price)
  && finite item.(quantity) && negb (is_zero item.(quantity))
  && finite item.(stock) && finite item.(sellerId).

(** ** Lines and products of the scenarios *)

(** The line of scenario B. *)
Definition scenarioB_line : CartItem :=
  {| id := int 7; name := ""; price := int 15; quantity := int 2;
     fileName := ""; stock := int 3; sellerId := int 0 |}.

(** A second line, with the id 8. *)
Definition desk_line : CartItem :=
  {| id := int 8; name := "desk"; price := int 40; quantity := int 1;
     fileName := "desk.png"; stock := int 9; sellerId := int 2 |}.

(** A product with the id of scenario B's line. *)
Definition product7 : object :=
  list_to_map [("id", Num (int 7)); ("name", Str "lamp");
               ("price", Num (int 15)); ("stock", Num (int 3))].

(** The product of scenario A. *)
Definition productX : object :=
  list_to_map [("id", Num (int 1)); ("name", Str "X");
               ("price", Num (int 10)); ("stock", Num (int 5))].

(** A product whose price and stock are strings with no number in them. *)
Definition product_unpriced : object :=
  list_to_map [("id", Num (int 3)); ("name", Str "Z");
               ("price", Str "n/a"); ("stock", Str "many")].

(** A product that is out of stock. *)
Definition product_out_of_stock : object :=
  list_to_map [("id", Num (int 2)); ("name", Str "Y");
               ("price", Num (int 4)); ("stock", Num (int 0))].


(** The line of a product that is out of stock, with the quantity 0. *)
Definition exhausted_line : CartItem :=
  {| id := int 2; name := "Y"; price := int 4; quantity := int 0;
     fileName := ""; stock := int 0; sellerId := int 0 |}.

(** * The rest of the code around the cart *)

(** ** More of the numbers *)

(** [a - b] on two numbers. *)
Definition num_sub (a b : number) : number := num_add a (num_neg b).

(** [a / b] on two numbers.  The zero of the model is the positive zero:
    a finite number over it is an infinity of the sign of the number. *)
Definition num_div (a b : number) : number :=
  match a, b with
  | NaN, _ | _, NaN => NaN
  | Fin x, Fin y =>
      if Qeq_bool y 0 then
        match (x ?= 0)%Q with Eq => NaN | Gt => PosInf | Lt => NegInf end
      else Fin (Qred (x / y))
  | Fin _, (PosInf | NegInf) => int 0
  | (PosInf | NegInf), (PosInf | NegInf) => NaN
  | _, _ =>
      match num_sign a, num_sign b with
      | Gt, (Gt | Eq) | Lt, Lt => PosInf
      | Gt, Lt | Lt, (Gt | Eq) => NegInf
      | Eq, _ => NaN
      end
  end.

(** The integer a number is cut to where the program needs one: [NaN] is
    0 and a finite number loses its fraction; [None] for an infinity. *)
Definition to_integer (n : number) : option Z :=
  match n with
  | NaN => Some 0
  | PosInf | NegInf => None
  | Fin q => Some (Z.quot (Qnum q) (Zpos (Qden q)))
  end.

(** ** More of [src/app/lib/utils.ts] *)



(** The regular expressions of the validators: what is between [^] and
    [$], which [test] matches against the whole string. *)
Inductive regex : Type :=
| Fail
| Eps
| Class (p : ascii -> bool)
| Seq (r1 r2 : regex)
| Alt (r1 r2 : regex)
| Star (r : regex).

(** [r+] and [r{n}]. *)
Definition OneOrMore (r : regex) : regex := Seq r (Star r).

Fixpoint Exactly (n : nat) (r : regex) : regex :=
  match n with
  | O => Eps
  | S n' => Seq r (Exactly n' r)
  end.

Fixpoint nullable (r : regex) : bool :=
  match r with
  | Fail | Class _ => false
  | Eps | Star _ => true
  | Seq r1 r2 => nullable r1 && nullable r2
  | Alt r1 r2 => nullable r1 || nullable r2
  end.

(** What is left of [r] to match after the character [c]. *)
Fixpoint derive (c : ascii) (r : regex) : regex :=
  match r with
  | Fail | Eps => Fail
  | Class p => if p c then Eps else Fail
  | Seq r1 r2 =>
      if nullable r1 then Alt (Seq (derive c r1) r2) (derive c r2)
      else Seq (derive c r1) r2
  | Alt r1 r2 => Alt (derive c r1) (derive c r2)
  | Star r' => Seq (derive c r') (Star r')
  end.

(** [/^r$/.test(s)]. *)
Fixpoint test (r : regex) (s : string) : bool :=
  match s with
  | EmptyString => nullable r
  | String c s' => test (derive c r) s'
  end.

(** [c]: the character itself. *)
Definition lit (c : ascii) : regex := Class (Ascii.eqb c).

(** [\d]. *)
Definition is_digit (c : ascii) : bool :=
  let n := Z.of_N (N_of_ascii c) in (48 <=? n) && (n <=? 57).

(** [[^\s@]] on one byte: every byte but [@] and the white space of one
    byte. *)
Definition is_address_char (c : ascii) : bool :=
  negb (is_white_space c || Ascii.eqb c "@").

(** The string has, somewhere in it, a white space of two or three
    bytes. *)
Fixpoint has_wide_white_space (s : string) : bool :=
  match s with
  | String c1 r1 =>
      match r1 with
      | String c2 r2 =>
          is_white_space2 c1 c2
          || match r2 with
             | String c3 _ => is_white_space3 c1 c2 c3
             | EmptyString => false
             end
      | EmptyString => false
      end
      || has_wide_white_space r1
  | EmptyString => false
  end.

(** [/^[^\s@]+@[^\s@]+\.[^\s@]+$/]. *)
Definition emailRegex : regex :=
  Seq (OneOrMore (Class is_address_char))
      (Seq (lit "@")
           (Seq (OneOrMore (Class is_address_char))
                (Seq (lit ".") (OneOrMore (Class is_address_char))))).

(** [emailRegex.test(email)].  The expression is matched byte by byte.
    Every byte of the string is matched by [@], by the dot or by [[^\s@]],
    and [\s] is also the white space of two and of three bytes, which no
    class of bytes tells from the other characters of as many bytes: a
    string that has one is rejected first. *)
Definition isValidEmail (email : string) : bool :=
  negb (has_wide_white_space email) && test emailRegex email.

(** [/^01\d{9}$/]. *)
Definition phoneRegex : regex :=
  Seq (lit "0") (Seq (lit "1") (Exactly 9 (Class is_digit))).

Definition isValidPhone (phone : string) : bool := test phoneRegex phone.

Definition calculateDiscountPrice (price discountPercentage : number) : number :=
  if negb (truthy (Num discountPercentage)) then price
  else num_sub price (num_mul price (num_div discountPercentage (int 100))).

(** [acc[key] = value] on an object made by [{}].  The key [__proto__] is
    the one that [Object.prototype] has a setter for: setting it gives the
    object no property of its own.  (The setter changes the prototype of
    the object when the value is an object; an object here is the
    properties it owns, and the prototype is not part of it.) *)
Definition set_property (acc : object) (key : string) (v : value) : object :=
  if String.eqb key "__proto__" then acc else <[key := v]> acc.

(** [Object.entries(obj).reduce(...)]: the entries are visited one by one
    and those with a truthy value are set in the accumulator, which starts
    empty. *)
Definition cleanObject (obj : object) : object :=
  map_fold (fun key v acc => if truthy v then set_property acc key v else acc) ∅ obj.





(** ** The pages that use the cart

    [cart/page.tsx], [products/[id]/ProductDetailClient.tsx],
    [products/ProductsClientComponent.tsx] and
    [categories/[id]/CategoryProductsClient.tsx]. *)

(** [handleQuantityChange(id, newQuantity)] of the cart page. *)
Definition handleQuantityChange (productId newQuantity : number)
    (items : list CartItem) : list CartItem :=
  if num_leb newQuantity (int 0) then removeFromCart productId items
  else updateQuantity productId newQuantity items.

(** The line's [-] button: [handleQuantityChange(item.id, item.quantity - 1)]. *)
Definition minus_click (item : CartItem) (items : list CartItem) : list CartItem :=
  handleQuantityChange item.(id) (num_sub item.(quantity) (int 1)) items.

(** The line's [+] button, disabled when [item.quantity >= item.stock]:
    [handleQuantityChange(item.id, item.quantity + 1)]. *)
Definition plus_click (item : CartItem) (items : list CartItem) : list CartItem :=
  if num_leb item.(stock) item.(quantity) then items
  else handleQuantityChange item.(id) (num_add item.(quantity) (int 1)) items.

(** The object that the product pages hand to [addToCart]:
    [{id: product.id, name: product.name, price: ensureNumber(product.price),
      stock: product.stock, image: product.fileName}]. *)
Definition cart_product (product : object) : object :=
  list_to_map
    [("id", prop product "id");
     ("name", prop product "name");
     ("price", ensureNumber (prop product "price"));
     ("stock", prop product "stock");
     ("image", prop product "fileName")].

(** [handleAddToCart] of the product page, on the cart: without a session
    the visitor is sent to the login page, and a product whose stock is 0
    is refused. *)
Definition handleAddToCart (isAuthenticated : bool) (product : object)
    (selected : number) (items : list CartItem) : outcome (list CartItem) :=
  if negb isAuthenticated then Returns items
  else if strict_eq_num (int 0) (prop product "stock") then Returns items
  else addToCart (cart_product product) (Num selected) items.

(** [handleQuickAddToCart] of the two product lists, on the cart. *)
Definition handleQuickAddToCart (isAuthenticated : bool) (product : object)
    (items : list CartItem) : outcome (list CartItem) :=
  if negb isAuthenticated then Returns items
  else addToCart (cart_product product) (Num (int 1)) items.

(** What a visitor can click.  The lines of the cart page are clicked by
    their place in the collection shown. *)
Inductive click : Type :=
| DetailAdd (product : object) (selected : number)
| QuickAdd (product : object)
| Minus (i : nat)
| Plus (i : nat)
| Remove (i : nat)
| ClearAll.

(** A click, on the cart.  The product page shows its button when
    [product.stock > 0] and the lists disable theirs when
    [product.stock === 0]; a stock that is not a number is compared after
    a conversion that the model leaves out. *)
Definition on_click (isAuthenticated : bool) (c : click)
    (items : list CartItem) : outcome (list CartItem) :=
  match c with
  | DetailAdd product selected =>
      match prop product "stock" with
      | Num s =>
          if num_ltb (int 0) s
          then handleAddToCart isAuthenticated product selected items
          else Returns items
      | _ => Untyped
      end
  | QuickAdd product =>
      if strict_eq_num (int 0) (prop product "stock") then Returns items
      else handleQuickAddToCart isAuthenticated product items
  | Minus i =>
      match nth_error items i with
      | Some item => Returns (minus_click item items)
      | None => Returns items
      end
  | Plus i =>
      match nth_error items i with
      | Some item => Returns (plus_click item items)
      | None => Returns items
      end
  | Remove i =>
      match nth_error items i with
      | Some item => Returns (removeFromCart item.(id) items)
      | None => Returns items
      end
  | ClearAll => Returns []
  end.

Fixpoint on_clicks (isAuthenticated : bool) (clicks : list click)
    (items : list CartItem) : outcome (list CartItem) :=
  match clicks with
  | [] => Returns items
  | c :: rest =>
      items' ← on_click isAuthenticated c items;
      on_clicks isAuthenticated rest items'
  end.

(** A product as the catalog gives it to the pages: a number for its id,
    a string for its name, a number or a string for its price, and for its
    stock a whole number that is not negative. *)
Definition catalog_product (product : object) : Prop :=
  is_number (prop product "id") = true /\
  is_string (prop product "name") = true /\
  (is_number (prop product "price") = true \/
   is_string (prop product "price") = true) /\
  exists s : Z, prop product "stock" = Num (int s) /\ 0 <= s.

(** A click that the pages offer on a product of the catalog: the
    quantities that the product page lets select are the whole numbers from
    1 to [Math.min(product.stock, 10)]. *)
Definition offered (c : click) : Prop :=
  match c with
  | DetailAdd product selected =>
      catalog_product product /\
      exists s k : Z,
        prop product "stock" = Num (int s) /\
        selected = int k /\ 1 <= k <= Z.min s 10
  | QuickAdd product => catalog_product product
  | Minus _ | Plus _ | Remove _ | ClearAll => True
  end.

(** A line as the pages make it: a whole quantity and a whole stock, both
    at least 1, and no file name. *)
Definition page_line (item : CartItem) : Prop :=
  exists k s : Z,
    item.(quantity) = int k /\ 1 <= k /\
    item.(stock) = int s /\ 1 <= s /\
    item.(fileName) = "".

(** A line of stock 3 whose quantity has grown to 7. *)
Definition overfull_line : CartItem := with_quantity scenarioB_line (int 7).

(** ** The notification provider of [src/app/contexts/NotificationContext.tsx] *)

Module Notifications.

Inductive kind : Type := success | error | info | warning.

Record Notification : Type := {
  id : string;
  message : string;
  type : kind;
  timestamp : Z
}.

(** The provider: its state [notifications] and the timers that
    [addNotification] has set and that have not fired, each with the id
    it will remove, oldest first. *)
Record provider : Type := {
  notifications : list Notification;
  timers : list string
}.

Definition removeNotification (i : string) (prev : list Notification)
  : list Notification :=
  List.filter (fun notification => negb (String.eqb notification.(id) i)) prev.

(** [addNotification({message, type})], with the id that
    [Math.random().toString(36).substring(2)] gives and the time of
    [new Date()]. *)
Definition addNotification (m : string) (t : kind) (random : string) (now : Z)
    (p : provider) : provider :=
  let newNotification :=
    {| id := random; message := m; type := t; timestamp := now |} in
  {| notifications := newNotification :: p.(notifications);
     timers := p.(timers) ++ [random] |}.

Definition clearNotifications (p : provider) : provider :=
  {| notifications := []; timers := p.(timers) |}.

(** The timers have one delay, so they fire in the order they were
    set: the oldest fires and calls [removeNotification] with its id. *)
Definition timer_fires (p : provider) : provider :=
  match p.(timers) with
  | [] => p
  | i :: rest =>
      {| notifications := removeNotification i p.(notifications);
         timers := rest |}
  end.

Inductive event : Type :=
| Add (m : string) (t : kind) (random : string) (now : Z)
| Dismiss (i : string)
| Clear
| Fire.

Definition step (e : event) (p : provider) : provider :=
  match e with
  | Add m t random now => addNotification m t random now p
  | Dismiss i =>
      {| notifications := removeNotification i p.(notifications);
         timers := p.(timers) |}
  | Clear => clearNotifications p
  | Fire => timer_fires p
  end.

Definition run (events : list event) (p : provider) : provider :=
  fold_left (fun q e => step e q) events p.

Definition initial : provider := {| notifications := []; timers := [] |}.

End Notifications.

(** ** The stars of the product page

    [calculateAverageRating] and [renderStars] of
    [products/[id]/ProductDetailClient.tsx]. *)

From Stdlib Require Import Qround.

(** [Math.floor(n)]. *)
Definition Math_floor (n : number) : number :=
  match n with
  | Fin q => int (Qfloor q)
  | NaN | PosInf | NegInf => n
  end.

Fixpoint copies (n : nat) (s : string) : string :=
  match n with
  | O => ""
  | S n' => s +:+ copies n' s
  end.

(** [s.repeat(count)]; [None] when it throws a [RangeError], which it does
    for a count below 0 and for an infinite count. *)
Definition repeat_string (s : string) (count : number) : option string :=
  match to_integer count with
  | Some k => if k <? 0 then None else Some (copies (Z.to_nat k) s)
  | None => None
  end.

(** The two symbols of [renderStars], as the source file has them. *)
Definition full_star : string := "â˜…".
Definition hollow_star : string := "â˜†".

Definition renderStars (rating : number) : option string :=
  full ← repeat_string full_star (Math_floor rating);
  hollow ← repeat_string hollow_star (num_sub (int 5) (Math_floor rating));
  Some (full +:+ hollow).

(** [calculateAverageRating()], on the ratings of the reviews, in the
    order of the reviews. *)
Definition calculateAverageRating (ratings : list number) : number :=
  if (length ratings =? 0)%nat then int 0
  else
    let sum := fold_left (fun acc rating => num_add acc rating) ratings (int 0) in
    num_div sum (int (Z.of_nat (length ratings))).

(** ** More vocabulary *)

(** The product an action adds, if it adds one, has a number for its id,
    and not [NaN]. *)
Definition numbered (a : action) : bool :=
  match a with
  | AddToCart product _ => number_id product
  | RemoveFromCart _ | UpdateQuantity _ _ | ClearCart => true
  end.

(** The value is a finite number. *)
Definition is_finite (v : value) : bool :=
  match v with Num n => finite n | _ => false end.

(** An action whose arguments have their declared types and are finite
    numbers, with the quantities and the stock [in_range]. *)
Definition clean (a : action) : bool :=
  declared a && in_range a &&
  match a with
  | AddToCart product qty =>
      is_finite (prop product "id") && is_finite (prop product "price")
      && is_finite (prop product "stock")
      && (is_finite (prop product "sellerId") || is_absent (prop product "sellerId"))
      && (is_finite qty || is_absent qty)
  | UpdateQuantity _ q => finite q
  | RemoveFromCart _ | ClearCart => true
  end.

(** The quantity that an action asks for: the one [addToCart] adds, 1
    when it is left out, and the one [updateQuantity] sets. *)
Definition asked (a : action) : number :=
  match a with
  | AddToCart _ (Num n) => n
  | AddToCart _ _ => int 1
  | UpdateQuantity _ q => if num_leb q (int 0) then int 0 else q
  | RemoveFromCart _ | ClearCart => int 0
  end.

Definition total_asked (actions : list action) : number :=
  fold_left (fun total a => num_add total (asked a)) actions (int 0).

(** A finite number that is not negative. *)
Definition amount (n : number) : Prop :=
  exists q : Q, n = Fin q /\ (0 <= q)%Q.

(** What the clean actions keep of a line: it is [storable], and its
    quantity and its stock are at least 1. *)
Definition kept (item : CartItem) : Prop :=
  storable item = true /\ stocked item.


(** The strings of a regular expression, as lists of characters. *)
Inductive lang : regex -> list ascii -> Prop :=
| lang_eps : lang Eps []
| lang_class (p : ascii -> bool) (c : ascii) :
    p c = true -> lang (Class p) [c]
| lang_seq (r1 r2 : regex) (u v : list ascii) :
    lang r1 u -> lang r2 v -> lang (Seq r1 r2) (u ++ v)
| lang_alt_l (r1 r2 : regex) (u : list ascii) :
    lang r1 u -> lang (Alt r1 r2) u
| lang_alt_r (r1 r2 : regex) (u : list ascii) :
    lang r2 u -> lang (Alt r1 r2) u
| lang_star_nil (r : regex) : lang (Star r) []
| lang_star_cons (r : regex) (u v : list ascii) :
    lang r u -> lang (Star r) v -> lang (Star r) (u ++ v).

(** The characters of a string. *)
Definition chars (s : string) : list ascii := String.list_ascii_of_string s.

(** A part of an address: not empty, with no white space and no [@]. *)
Definition address_part (w : list ascii) : Prop :=
  w <> [] /\ Forall (fun c => is_address_char c = true) w.

(** What every event keeps: each notification shown has, among the timers
    that have not fired, one that will remove it. *)
Definition timed (p : Notifications.provider) : Prop :=
  Forall (fun n => In (Notifications.id n) (Notifications.timers p))
         (Notifications.notifications p).

(** A provider that shows one notification, its timer not fired. *)
Definition one_shown : Notifications.provider :=
  {| Notifications.notifications :=
       [{| Notifications.id := "k3x"; Notifications.message := "saved";
           Notifications.type := Notifications.success;
           Notifications.timestamp := 10 |}];
     Notifications.timers := ["k3x"] |}.

(** * Properties *)

(** ** Numbers *)

Lemma num_eqb_sym a b : num_eqb a b = num_eqb b a.
Proof.
  destruct a, b; simpl; try reflexivity.
  destruct (Qeq_bool q q0) eqn:E1, (Qeq_bool q0 q) eqn:E2; try reflexivity.
  - apply Qeq_bool_iff in E1. symmetry in E1. apply Qeq_bool_iff in E1. congruence.
  - apply Qeq_bool_iff in E2. symmetry in E2. apply Qeq_bool_iff in E2. congruence.
Qed.

Lemma num_eqb_trans a b c :
  num_eqb a b = true -> num_eqb b c = true -> num_eqb a c = true.
Proof.
  destruct a, b, c; simpl; try congruence.
  rewrite !Qeq_bool_iff. intros H1 H2. now rewrite H1.
Qed.

Lemma num_eqb_refl a : isNaN a = false -> num_eqb a a = true.
Proof. destruct a; simpl; try congruence. intros _. apply Qeq_bool_iff. reflexivity. Qed.

Lemma num_ltb_not_leb a b : num_ltb a b = true -> num_leb b a = false.
Proof.
  destruct a, b; simpl; try congruence.
  intros H. apply negb_true_iff in H. exact H.
Qed.

Lemma num_leb_trans a b c :
  num_leb a b = true -> num_leb b c = true -> num_leb a c = true.
Proof.
  destruct a, b, c; simpl; try congruence.
  rewrite !Qle_bool_iff. intros. lra.
Qed.

Lemma num_leb_ltb_trans a b c :
  num_leb a b = true -> num_ltb b c = true -> num_leb c a = false.
Proof.
  destruct a, b, c; simpl; try congruence.
  intros H1 H2. apply negb_true_iff in H2.
  apply Qle_bool_iff in H1.
  destruct (Qle_bool q1 q) eqn:E; [|reflexivity].
  apply Qle_bool_iff in E.
  assert (q1 <= q0)%Q by lra. apply Qle_bool_iff in H. congruence.
Qed.

Lemma Math_min_above q s : num_ltb s q = true -> Math_min q s = s.
Proof.
  intros H. pose proof (num_ltb_not_leb _ _ H) as H'.
  destruct q, s; simpl in *; try congruence.
  now rewrite H'.
Qed.

Lemma Math_min_at_least k a b :
  num_leb k a = true -> num_leb k b = true -> num_leb k (Math_min a b) = true.
Proof.
  intros Ha Hb.
  destruct a, b; simpl in *; try congruence; destruct k; simpl in *; try congruence.
  all: match goal with |- context [if ?c then _ else _] => destruct c end; assumption.
Qed.

Lemma num_add_at_least_one a b :
  num_leb (int 1) a = true -> num_leb (int 1) b = true ->
  num_leb (int 1) (num_add a b) = true.
Proof.
  destruct a, b; simpl; try congruence.
  rewrite !Qle_bool_iff. intros Ha Hb.
  rewrite Qred_correct. unfold inject_Z in *. lra.
Qed.

Lemma num_leb_one_not_nonpositive q :
  num_leb (int 1) q = true -> num_leb q (int 0) = false.
Proof.
  destruct q; simpl; try congruence.
  intros H. apply Qle_bool_iff in H.
  destruct (Qle_bool q (inject_Z 0)) eqn:E; [|reflexivity].
  apply Qle_bool_iff in E. unfold inject_Z in *. lra.
Qed.

(** ** The updaters, line by line *)

Lemma with_quantity_fields item q :
  (with_quantity item q).(id) = item.(id) /\
  (with_quantity item q).(name) = item.(name) /\
  (with_quantity item q).(price) = item.(price) /\
  (with_quantity item q).(fileName) = item.(fileName) /\
  (with_quantity item q).(stock) = item.(stock) /\
  (with_quantity item q).(sellerId) = item.(sellerId) /\
  (with_quantity item q).(quantity) = q.
Proof. repeat split. Qed.

Lemma removeFromCart_absent productId items :
  Forall (fun item => num_eqb item.(id) productId = false)
         (removeFromCart productId items).
Proof.
  apply List.Forall_forall. intros item Hin.
  apply filter_In in Hin as [_ H]. now apply negb_true_iff in H.
Qed.

Lemma filter_filter_same {A} (f : A -> bool) (l : list A) :
  List.filter f (List.filter f l) = List.filter f l.
Proof.
  induction l as [|x l IH]; simpl; [reflexivity|].
  destruct (f x) eqn:E; simpl; rewrite ?E, IH; reflexivity.
Qed.

Lemma updateQuantity_positive productId q items :
  num_leb q (int 0) = false ->
  updateQuantity productId q items =
  map (fun item =>
         if num_eqb item.(id) productId
         then with_quantity item (Math_min q item.(stock))
         else item)
      items.
Proof. intros H. unfold updateQuantity. now rewrite H. Qed.

(** ** The sanitiser *)

Lemma sanitizeCartItem_object (props : object) :
  sanitizeCartItem (Obj props) =
  (id' ← numeric_field (prop props "id") 0;
   name' ← string_field (prop props "name");
   price' ← numeric_field (prop props "price") 0;
   quantity' ← numeric_field (prop props "quantity") 1;
   fileName' ← string_field (prop props "fileName");
   stock' ← numeric_field (prop props "stock") 0;
   sellerId' ← numeric_field (prop props "sellerId") 0;
   Returns {| id := id'; name := name'; price := price'; quantity := quantity';
              fileName := fileName'; stock := stock'; sellerId := sellerId' |}).
Proof. reflexivity. Qed.

Lemma sanitizeCartItem_object_fields (props : object) (line : CartItem) :
  sanitizeCartItem (Obj props) = Returns line ->
  numeric_field (prop props "id") 0 = Returns line.(id) /\
  string_field (prop props "name") = Returns line.(name) /\
  numeric_field (prop props "price") 0 = Returns line.(price) /\
  numeric_field (prop props "quantity") 1 = Returns line.(quantity) /\
  string_field (prop props "fileName") = Returns line.(fileName) /\
  numeric_field (prop props "stock") 0 = Returns line.(stock) /\
  numeric_field (prop props "sellerId") 0 = Returns line.(sellerId).
Proof.
  rewrite sanitizeCartItem_object.
  destruct (numeric_field (prop props "id") 0); try discriminate.
  destruct (string_field (prop props "name")); try discriminate.
  destruct (numeric_field (prop props "price") 0); try discriminate.
  destruct (numeric_field (prop props "quantity") 1); try discriminate.
  destruct (string_field (prop props "fileName")); try discriminate.
  destruct (numeric_field (prop props "stock") 0); try discriminate.
  destruct (numeric_field (prop props "sellerId") 0); try discriminate.
  simpl. intros [= <-]. repeat split.
Qed.

Lemma sanitizeCartItem_object_never_throws (props : object) (e : exn) :
  sanitizeCartItem (Obj props) <> Throws e.
Proof.
  rewrite sanitizeCartItem_object.
  assert (Hn : forall v d e', numeric_field v d <> Throws e')
    by (intros v d e'; unfold numeric_field, as_number;
        destruct (ensureNumber _); discriminate).
  assert (Hs : forall v e', string_field v <> Throws e')
    by (intros v e'; unfold string_field, as_string;
        destruct (js_or _ _); discriminate).
  repeat
    match goal with
    | |- context [mbind _ (numeric_field ?v ?d)] =>
        let E := fresh "E" in
        destruct (numeric_field v d) eqn:E;
        [simpl | exfalso; eapply Hn; eassumption | discriminate]
    | |- context [mbind _ (string_field ?v)] =>
        let E := fresh "E" in
        destruct (string_field v) eqn:E;
        [simpl | exfalso; eapply Hs; eassumption | discriminate]
    end.
  discriminate.
Qed.

(** [ensureNumber] returns a number as it is: [totalPrice] takes the price
    of a line for [ensureNumber(item.price)]. *)
Lemma ensureNumber_number (n : number) : ensureNumber (Num n) = Num n.
Proof. reflexivity. Qed.

(** A numeric field returns on a number, on a string and on an absent
    value. *)
Lemma numeric_field_number n d :
  numeric_field (Num n) d = Returns (if isNaN n || is_zero n then int d else n).
Proof.
  unfold numeric_field, js_or. simpl.
  destruct (isNaN n || is_zero n); reflexivity.
Qed.

Lemma numeric_field_absent d : numeric_field Undefined d = Returns (int d).
Proof. reflexivity. Qed.

Lemma numeric_field_null d : numeric_field Null d = Returns (int d).
Proof. reflexivity. Qed.

Lemma numeric_field_string s d :
  numeric_field (Str s) d =
  Returns (if String.eqb s "" then int d
           else if isNaN (parseFloat s) then int 0 else parseFloat s).
Proof.
  unfold numeric_field, js_or. simpl.
  destruct (String.eqb s ""); reflexivity.
Qed.

Lemma string_field_string s : string_field (Str s) = Returns s.
Proof.
  unfold string_field, js_or. simpl.
  destruct (String.eqb s "") eqn:E; [|reflexivity].
  apply String.eqb_eq in E. now subst.
Qed.

Lemma string_field_absent : string_field Undefined = Returns "".
Proof. reflexivity. Qed.

Lemma prop_quantity_set (product : object) (qty : value) :
  prop (<["quantity" := qty]> product) "quantity" = qty.
Proof. unfold prop. now rewrite lookup_insert_eq. Qed.

Lemma prop_other_set (product : object) (qty : value) (k : string) :
  k <> "quantity" ->
  prop (<["quantity" := qty]> product) k = prop product k.
Proof. intros H. unfold prop. now rewrite lookup_insert_ne. Qed.

(** ** One call of an updater *)

Lemma find_present {A} (f : A -> bool) (l : list A) (x : A) :
  In x l -> f x = true -> exists y, List.find f l = Some y.
Proof.
  intros Hin Hf. destruct (List.find f l) as [y|] eqn:E; [eauto|].
  pose proof (find_none f l E x Hin). congruence.
Qed.

Lemma addToCart_existing product q items :
  Exists (fun item => strict_eq_num item.(id) (prop product "id") = true) items ->
  addToCart product (Num q) items =
  Returns
    (map (fun item =>
            if strict_eq_num item.(id) (prop product "id")
            then with_quantity item (num_add item.(quantity) q)
            else item)
         items).
Proof.
  intros H. apply List.Exists_exists in H as (x & Hin & Hx).
  destruct (find_present (fun item => strict_eq_num item.(id) (prop product "id"))
              items x Hin Hx) as [y Hy].
  unfold addToCart. rewrite Hy. reflexivity.
Qed.

(** C2. Quantity ceiling.  In a cart, take a line with the given id whose
    stock [s] is not negative, as the data model has it, and a quantity [q]
    with [q > s]: after [updateQuantity] with [q] the line, at its place,
    has the quantity [s].  And scenario B: on the one line
    [{id:7, price:15, stock:3, quantity:2}], [updateQuantity(7, 10)] leaves
    the quantity 3 and the total price 45. *)
Theorem updateQuantity_clamps_to_stock :
  (forall (productId q : number) (items : list CartItem) (i : nat) (item : CartItem),
      nth_error items i = Some item ->
      num_eqb item.(id) productId = true ->
      num_leb (int 0) item.(stock) = true ->
      num_ltb item.(stock) q = true ->
      exists item',
        nth_error (updateQuantity productId q items) i = Some item' /\
        item'.(quantity) = item.(stock)) /\
  updateQuantity (int 7) (int 10) [scenarioB_line]
    = [with_quantity scenarioB_line (int 3)] /\
  totalPrice (updateQuantity (int 7) (int 10) [scenarioB_line]) = int 45.
Proof.
  split; [|split; reflexivity].
  intros productId q items i item Hi Hid Hs Hq.
  rewrite updateQuantity_positive by (eapply num_leb_ltb_trans; eassumption).
  rewrite nth_error_map, Hi. simpl. rewrite Hid.
  eexists. split; [reflexivity|]. simpl. now apply Math_min_above.
Qed.

(** C2 at scenario B: the line with id 7 and stock 3, asked for 10. *)
Lemma updateQuantity_clamps_to_stock_witness :
  exists item',
    nth_error (updateQuantity (int 7) (int 10) [scenarioB_line]) 0 = Some item' /\
    item'.(quantity) = int 3.
Proof.
  apply (proj1 updateQuantity_clamps_to_stock (int 7) (int 10) [scenarioB_line]
               0%nat scenarioB_line); reflexivity.
Defined.

(** The hypothesis of C2 on the stock is needed: below a negative stock
    there are quantities that are not positive, and for them the line is
    removed. *)
Example negative_stock_is_outside_the_data_model :
  num_ltb (int (-5)) (int (-1)) = true /\
  updateQuantity (int 7) (int (-1))
    [{| id := int 7; name := ""; price := int 15; quantity := int 2;
        fileName := ""; stock := int (-5); sellerId := int 0 |}] = [].
Proof. split; reflexivity. Qed.

(** C3. Quantity floor.  With [q <= 0], [updateQuantity] is
    [removeFromCart] of the id, as an updater and as an action of the
    provider: no line with that id is left, and the lines with another id
    are the same, in the same order, before and after. *)
Theorem updateQuantity_nonpositive_removes
    (productId q : number) (items : list CartItem) :
  num_leb q (int 0) = true ->
  updateQuantity productId q items = removeFromCart productId items /\
  (forall p : provider,
      dispatch (UpdateQuantity productId q) p = dispatch (RemoveFromCart productId) p) /\
  Forall (fun item => num_eqb item.(id) productId = false)
         (updateQuantity productId q items) /\
  List.filter (fun item => negb (num_eqb item.(id) productId))
              (updateQuantity productId q items)
  = List.filter (fun item => negb (num_eqb item.(id) productId)) items.
Proof.
  intros Hq.
  assert (E : forall l, updateQuantity productId q l = removeFromCart productId l)
    by (intros l; unfold updateQuantity; now rewrite Hq).
  split; [apply E|]. split.
  { intros p. unfold dispatch, handle, update. now rewrite E. }
  rewrite E. split; [apply removeFromCart_absent|].
  apply filter_filter_same.
Qed.

(** C3 on a cart of two lines, asked for the quantity 0 of the first. *)
Lemma updateQuantity_nonpositive_removes_witness :
  updateQuantity (int 7) (int 0) [scenarioB_line; desk_line]
  = removeFromCart (int 7) [scenarioB_line; desk_line].
Proof.
  apply (updateQuantity_nonpositive_removes (int 7) (int 0)). reflexivity.
Defined.

(** C6. Adding a product whose id has a line.  The line, at its place,
    keeps its id, name, price, file name, stock and seller, and its
    quantity becomes the sum of its quantity and [q], whatever its stock;
    no line is added. *)
Theorem addToCart_existing_increments
    (product : object) (q : number) (items : list CartItem)
    (i : nat) (item : CartItem) :
  nth_error items i = Some item ->
  strict_eq_num item.(id) (prop product "id") = true ->
  exists items' item',
    addToCart product (Num q) items = Returns items' /\
    length items' = length items /\
    nth_error items' i = Some item' /\
    item'.(quantity) = num_add item.(quantity) q /\
    item'.(id) = item.(id) /\
    item'.(name) = item.(name) /\
    item'.(price) = item.(price) /\
    item'.(stock) = item.(stock) /\
    item'.(fileName) = item.(fileName) /\
    item'.(sellerId) = item.(sellerId).
Proof.
  intros Hi Hid.
  eexists. eexists. split.
  { apply addToCart_existing. apply List.Exists_exists.
    exists item. split; [eapply nth_error_In; eassumption | assumption]. }
  split; [apply length_map|].
  rewrite nth_error_map, Hi. simpl. rewrite Hid.
  split; [reflexivity|]. repeat split.
Qed.

(** C6 on scenario B's line, of stock 3 and quantity 2: adding 5 gives the
    quantity 7. *)
Lemma addToCart_existing_increments_witness :
  exists items' item',
    addToCart product7 (Num (int 5)) [scenarioB_line] = Returns items' /\
    length items' = 1%nat /\
    nth_error items' 0 = Some item' /\
    item'.(quantity) = int 7 /\
    item'.(id) = int 7 /\
    item'.(name) = "" /\
    item'.(price) = int 15 /\
    item'.(stock) = int 3 /\
    item'.(fileName) = "" /\
    item'.(sellerId) = int 0.
Proof.
  apply (addToCart_existing_increments product7 (int 5) [scenarioB_line]
           0%nat scenarioB_line); reflexivity.
Defined.

(** C10. With [q >= 1], [updateQuantity] keeps the number and the order of
    the lines; a line with another id is unchanged, and a line with the
    given id changes in its quantity only, which becomes
    [Math.min(q, stock)]. *)
Theorem updateQuantity_changes_only_quantity
    (productId q : number) (items : list CartItem) :
  num_leb (int 1) q = true ->
  length (updateQuantity productId q items) = length items /\
  forall (i : nat) (item : CartItem),
    nth_error items i = Some item ->
    exists item',
      nth_error (updateQuantity productId q items) i = Some item' /\
      item'.(id) = item.(id) /\
      item'.(name) = item.(name) /\
      item'.(price) = item.(price) /\
      item'.(stock) = item.(stock) /\
      item'.(fileName) = item.(fileName) /\
      item'.(sellerId) = item.(sellerId) /\
      (num_eqb item.(id) productId = false -> item' = item) /\
      (num_eqb item.(id) productId = true ->
       item'.(quantity) = Math_min q item.(stock)).
Proof.
  intros Hq.
  rewrite updateQuantity_positive by now apply num_leb_one_not_nonpositive.
  split; [apply length_map|].
  intros i item Hi. rewrite nth_error_map, Hi. simpl.
  eexists. split; [reflexivity|].
  destruct (num_eqb item.(id) productId); repeat split; congruence.
Qed.

(** C10 on a cart of two lines with the ids 7 and 8, asked for the
    quantity 3 of the second. *)
Lemma updateQuantity_changes_only_quantity_witness :
  length (updateQuantity (int 8) (int 3) [scenarioB_line; desk_line]) = 2%nat /\
  forall (i : nat) (item : CartItem),
    nth_error [scenarioB_line; desk_line] i = Some item ->
    exists item',
      nth_error (updateQuantity (int 8) (int 3) [scenarioB_line; desk_line]) i = Some item' /\
      item'.(id) = item.(id) /\
      item'.(name) = item.(name) /\
      item'.(price) = item.(price) /\
      item'.(stock) = item.(stock) /\
      item'.(fileName) = item.(fileName) /\
      item'.(sellerId) = item.(sellerId) /\
      (num_eqb item.(id) (int 8) = false -> item' = item) /\
      (num_eqb item.(id) (int 8) = true ->
       item'.(quantity) = Math_min (int 3) item.(stock)).
Proof.
  apply (updateQuantity_changes_only_quantity (int 8) (int 3) [scenarioB_line; desk_line]).
  reflexivity.
Defined.

(** ** Sequences of actions *)

Lemma distinct_app_one (ids : list number) (n : number) :
  distinct ids = true ->
  Forall (fun m => num_eqb m n = false) ids ->
  distinct (ids ++ [n]) = true.
Proof.
  induction ids as [|m ids IH]; simpl; [reflexivity|].
  intros Hd Hn. apply andb_true_iff in Hd as [Hm Hd].
  inversion Hn as [|? ? Hmn Hrest]; subst.
  apply andb_true_iff. split; [|now apply IH].
  rewrite forallb_app. apply andb_true_iff. split; [assumption|].
  simpl. now rewrite Hmn.
Qed.

(** The id under which a product is inserted is the id it is looked up
    with. *)
Lemma inserted_id_is_looked_up (product : object) (qty : value) (line : CartItem) :
  number_id product = true ->
  sanitizeCartItem (Obj (<["quantity" := qty]> product)) = Returns line ->
  strict_eq_num line.(id) (prop product "id") = true.
Proof.
  unfold number_id. intros Hid Hs.
  apply sanitizeCartItem_object_fields in Hs as (Hline & _).
  rewrite prop_other_set in Hline by discriminate.
  destruct (prop product "id") as [| | |n| | |]; try discriminate.
  rewrite numeric_field_number in Hline. injection Hline as <-.
  apply negb_true_iff in Hid. rewrite Hid. simpl.
  destruct (is_zero n) eqn:Hz.
  - destruct n; try discriminate. simpl in *.
    apply Qeq_bool_iff in Hz. apply Qeq_bool_iff. now symmetry.
  - now apply num_eqb_refl.
Qed.

Lemma addToCart_new_line (product : object) (qty : value)
    (items items' : list CartItem) :
  List.find (fun item => strict_eq_num item.(id) (prop product "id")) items = None ->
  addToCart product qty items = Returns items' ->
  exists line,
    sanitizeCartItem
      (Obj (<["quantity" := match qty with Undefined => Num (int 1) | _ => qty end]>
              product)) = Returns line /\
    items' = items ++ [line].
Proof.
  intros Hfind. unfold addToCart. rewrite Hfind.
  destruct (sanitizeCartItem _) as [line| |]; try discriminate.
  simpl. intros [= <-]. eauto.
Qed.

Lemma addToCart_keeps_ids (product : object) (qty : value)
    (items items' : list CartItem) :
  Exists (fun item => strict_eq_num item.(id) (prop product "id") = true) items ->
  addToCart product qty items = Returns items' ->
  map id items' = map id items.
Proof.
  intros H. apply List.Exists_exists in H as (x & Hin & Hx).
  destruct (find_present (fun item => strict_eq_num item.(id) (prop product "id"))
              items x Hin Hx) as [y Hy].
  unfold addToCart. rewrite Hy.
  destruct (addend _); [|destruct (no_primitive _); discriminate]. intros [= <-].
  rewrite map_map. apply map_ext. intros item.
  destruct (strict_eq_num (id item) _); reflexivity.
Qed.

Lemma addToCart_unique (product : object) (qty : value)
    (items items' : list CartItem) :
  number_id product = true ->
  unique_ids items = true ->
  addToCart product qty items = Returns items' ->
  unique_ids items' = true.
Proof.
  intros Hid Hu Hadd.
  destruct (List.find (fun item => strict_eq_num item.(id) (prop product "id")) items)
    as [y|] eqn:Hfind.
  - apply find_some in Hfind as [Hin Hy].
    unfold unique_ids. erewrite addToCart_keeps_ids; try eassumption.
    apply List.Exists_exists. eauto.
  - destruct (addToCart_new_line _ _ _ _ Hfind Hadd) as (line & Hline & ->).
    apply inserted_id_is_looked_up in Hline; [|assumption].
    unfold unique_ids. rewrite map_app. simpl.
    apply distinct_app_one; [assumption|].
    apply List.Forall_forall. intros m Hm.
    apply in_map_iff in Hm as (item & <- & Hin).
    pose proof (find_none _ _ Hfind item Hin) as Hne. simpl in Hne.
    unfold strict_eq_num in *.
    destruct (prop product "id") as [| | |n| | |]; try discriminate.
    destruct (num_eqb (id item) (id line)) eqn:E; [|reflexivity].
    rewrite (num_eqb_trans _ _ _ E Hline) in Hne. discriminate.
Qed.

Lemma addToCart_declared_returns (product : object) (qty : value)
    (items : list CartItem) :
  declared (AddToCart product qty) = true ->
  exists items', addToCart product qty items = Returns items'.
Proof.
  simpl. unfold declared_product. rewrite !andb_true_iff, !orb_true_iff.
  intros ((((((Hid & Hname) & Hprice) & Hfile) & Hstock) & Hseller) & Hqty).
  assert (Hq : exists n, match qty with Undefined => Num (int 1) | _ => qty end = Num n).
  { destruct Hqty as [H|H]; destruct qty; try discriminate; eauto. }
  destruct Hq as [n Hn].
  unfold addToCart. rewrite Hn.
  destruct (List.find _ items); [simpl; eauto|].
  rewrite sanitizeCartItem_object, prop_quantity_set.
  rewrite !prop_other_set by discriminate.
  destruct (prop product "id"); try discriminate.
  destruct (prop product "name"); try discriminate.
  destruct (prop product "price"); try discriminate.
  destruct (prop product "stock"); try discriminate.
  rewrite !numeric_field_number, string_field_string. simpl.
  destruct Hfile as [Hfile|Hfile]; destruct (prop product "fileName"); try discriminate;
    destruct Hseller as [Hseller|Hseller]; destruct (prop product "sellerId");
    try discriminate;
    rewrite ?numeric_field_number, ?string_field_string; simpl; eauto.
Qed.

Lemma updates_declared_return (actions : list action) (items : list CartItem) :
  Forall (fun a => declared a = true) actions ->
  exists items', updates actions items = Returns items'.
Proof.
  intros H. revert items.
  induction H as [|a actions Ha _ IH]; intros items; simpl; [eauto|].
  assert (Hstep : exists items1, update a items = Returns items1).
  { destruct a; simpl; eauto. now apply addToCart_declared_returns. }
  destruct Hstep as [items1 ->]. simpl. apply IH.
Qed.

Lemma updates_adds_unique (calls : list (object * value))
    (items items' : list CartItem) :
  Forall (fun call => number_id call.1 = true) calls ->
  unique_ids items = true ->
  updates (adds calls) items = Returns items' ->
  unique_ids items' = true.
Proof.
  intros H. revert items.
  induction H as [|[product qty] calls Hid _ IH]; intros items Hu; simpl.
  - now intros [= <-].
  - destruct (addToCart product qty items) as [items1| |] eqn:E; try discriminate.
    simpl. apply IH. eapply addToCart_unique; eassumption.
Qed.

(** C1. Uniqueness.  Take a sequence of [addToCart] calls from the empty
    collection, each for a product whose id is a number (and not [NaN]), as
    the data model has it.  If the calls return, no two lines of the
    resulting collection have the same id; and they do return when their
    arguments have their declared types.  A call for a product whose id has
    a line leaves the ids of the lines as they are: it inserts no second
    line. *)
Theorem addToCart_keeps_ids_unique (calls : list (object * value)) :
  Forall (fun call => number_id call.1 = true) calls ->
  (forall items,
      updates (adds calls) [] = Returns items -> unique_ids items = true) /\
  (Forall (fun a => declared a = true) (adds calls) ->
   exists items, updates (adds calls) [] = Returns items) /\
  (forall product qty items items',
      Exists (fun item => strict_eq_num item.(id) (prop product "id") = true) items ->
      addToCart product qty items = Returns items' ->
      map id items' = map id items).
Proof.
  intros H. split; [|split].
  - intros items. now apply updates_adds_unique.
  - intros Hd. now apply updates_declared_return.
  - apply addToCart_keeps_ids.
Qed.

(** C1 on scenario A: the product with the id 1 added twice. *)
Lemma addToCart_keeps_ids_unique_witness :
  exists items,
    updates (adds [(productX, Num (int 2)); (productX, Num (int 1))]) []
    = Returns items /\
    unique_ids items = true.
Proof.
  assert (Hid : Forall (fun call : object * value => number_id call.1 = true)
                       [(productX, Num (int 2)); (productX, Num (int 1))])
    by (repeat constructor).
  destruct (addToCart_keeps_ids_unique _ Hid) as (Hunique & Hreturns & _).
  destruct Hreturns as [items Hitems]; [repeat constructor|].
  exists items. split; [exact Hitems | exact (Hunique items Hitems)].
Defined.

(** The hypothesis of C1 on the ids is needed: a product is looked up
    with the id it is given and inserted with the id the sanitiser makes of
    it, and the two differ when the id given is [NaN] or a string. *)
Example ids_outside_the_data_model :
  (exists items,
      updates (adds [(<["id" := Num NaN]> productX, Undefined);
                     (<["id" := Num NaN]> productX, Undefined)]) []
      = Returns items /\
      map id items = [int 0; int 0] /\ unique_ids items = false) /\
  (exists items,
      updates (adds [(<["id" := Str "5"]> productX, Undefined);
                     (<["id" := Str "5"]> productX, Undefined)]) []
      = Returns items /\
      map id items = [int 5; int 5] /\ unique_ids items = false).
Proof.
  split; eexists; (split; [vm_compute; reflexivity|]); split; reflexivity.
Qed.

(** ** The quantity of a line *)

Lemma at_least_one_truthy n :
  num_leb (int 1) n = true -> isNaN n || is_zero n = false.
Proof.
  destruct n; simpl; try congruence. intros H.
  apply Qle_bool_iff in H.
  destruct (Qeq_bool q 0) eqn:E; [|reflexivity].
  apply Qeq_bool_iff in E. unfold inject_Z in H. lra.
Qed.

Lemma numeric_field_at_least_one n d :
  num_leb (int 1) n = true -> numeric_field (Num n) d = Returns n.
Proof.
  intros H. rewrite numeric_field_number. now rewrite at_least_one_truthy.
Qed.

Lemma addToCart_stocked (product : object) (qty : value)
    (items items' : list CartItem) :
  in_range (AddToCart product qty) = true ->
  Forall stocked items ->
  addToCart product qty items = Returns items' ->
  Forall stocked items'.
Proof.
  simpl. rewrite andb_true_iff, orb_true_iff. intros [Hqty Hstock] Hitems.
  assert (Hq : exists n,
             match qty with Undefined => Num (int 1) | _ => qty end = Num n /\
             num_leb (int 1) n = true).
  { destruct Hqty as [H|H]; destruct qty; try discriminate; eauto. }
  destruct Hq as (n & Hn & Hn1).
  destruct (List.find (fun item => strict_eq_num item.(id) (prop product "id")) items)
    as [y|] eqn:Hfind.
  - unfold addToCart. rewrite Hfind, Hn. simpl. intros [= <-].
    apply Forall_map. eapply Forall_impl; [eassumption|].
    intros item [Hquantity Hs]. simpl.
    destruct (strict_eq_num _ _); [|now split].
    split; [now apply num_add_at_least_one | assumption].
  - intros Hadd.
    destruct (addToCart_new_line _ _ _ _ Hfind Hadd) as (line & Hline & ->).
    apply Forall_app. split; [assumption|]. constructor; [|constructor].
    apply sanitizeCartItem_object_fields in Hline
      as (_ & _ & _ & Hquantity & _ & Hs & _).
    rewrite prop_quantity_set, Hn in Hquantity.
    rewrite prop_other_set in Hs by discriminate.
    destruct (prop product "stock") as [| | |s| | |]; try discriminate.
    simpl in Hstock.
    rewrite numeric_field_at_least_one in Hquantity by assumption.
    rewrite numeric_field_at_least_one in Hs by assumption.
    injection Hquantity as Hquantity. injection Hs as Hs.
    unfold stocked. rewrite <- Hquantity, <- Hs. now split.
Qed.

Lemma removeFromCart_Forall (P : CartItem -> Prop) productId items :
  Forall P items -> Forall P (removeFromCart productId items).
Proof.
  intros H. apply List.Forall_forall. intros item Hin.
  apply filter_In in Hin as [Hin _].
  revert item Hin. now apply List.Forall_forall.
Qed.

Lemma updateQuantity_stocked productId q items :
  in_range (UpdateQuantity productId q) = true ->
  Forall stocked items ->
  Forall stocked (updateQuantity productId q items).
Proof.
  simpl. intros Hq Hitems.
  destruct (num_leb q (int 0)) eqn:E.
  - unfold updateQuantity. rewrite E. now apply removeFromCart_Forall.
  - simpl in Hq. rewrite updateQuantity_positive by assumption.
    apply Forall_map. eapply Forall_impl; [eassumption|].
    intros item [Hquantity Hs]. simpl.
    destruct (num_eqb _ _); [|now split].
    split; [now apply Math_min_at_least | assumption].
Qed.

Lemma update_stocked (a : action) (items items' : list CartItem) :
  in_range a = true ->
  Forall stocked items ->
  update a items = Returns items' ->
  Forall stocked items'.
Proof.
  intros Ha Hitems. destruct a as [product qty|productId|productId q|]; simpl.
  - now apply addToCart_stocked.
  - intros [= <-]. now apply removeFromCart_Forall.
  - intros [= <-]. now apply updateQuantity_stocked.
  - intros [= <-]. constructor.
Qed.

Lemma updates_stocked (actions : list action) (items items' : list CartItem) :
  Forall (fun a => in_range a = true) actions ->
  Forall stocked items ->
  updates actions items = Returns items' ->
  Forall stocked items'.
Proof.
  intros H. revert items.
  induction H as [|a actions Ha _ IH]; intros items Hitems; simpl.
  - now intros [= <-].
  - destruct (update a items) as [items1| |] eqn:E; try discriminate.
    simpl. apply IH. eapply update_stocked; eassumption.
Qed.

(** C4, as the program has it.  From the empty collection, through
    actions whose arguments are [in_range], every line of every collection
    reached has a quantity of at least 1; and the actions do reach a
    collection when their arguments have their declared types. *)
Theorem quantity_at_least_one_in_range (actions : list action) :
  Forall (fun a => in_range a = true) actions ->
  (forall items,
      updates actions [] = Returns items ->
      Forall (fun item => num_leb (int 1) item.(quantity) = true) items) /\
  (Forall (fun a => declared a = true) actions ->
   exists items, updates actions [] = Returns items).
Proof.
  intros H. split.
  - intros items Hrun.
    assert (Hs : Forall stocked items)
      by (eapply updates_stocked; [eassumption | constructor | eassumption]).
    eapply Forall_impl; [eassumption|]. now intros item [Hq _].
  - intros Hd. now apply updates_declared_return.
Qed.

(** C4 on scenario A followed by a quantity of 9, a removal, a second
    product and the quantity 0 for it. *)
Lemma quantity_at_least_one_in_range_witness :
  exists items,
    updates [AddToCart productX (Num (int 2)); AddToCart productX Undefined;
             UpdateQuantity (int 1) (int 9); RemoveFromCart (int 4);
             AddToCart product7 (Num (int 1)); UpdateQuantity (int 7) (int 0)] []
    = Returns items /\
    Forall (fun item => num_leb (int 1) item.(quantity) = true) items.
Proof.
  assert (Hrange : Forall (fun a => in_range a = true)
            [AddToCart productX (Num (int 2)); AddToCart productX Undefined;
             UpdateQuantity (int 1) (int 9); RemoveFromCart (int 4);
             AddToCart product7 (Num (int 1)); UpdateQuantity (int 7) (int 0)])
    by (repeat constructor).
  destruct (quantity_at_least_one_in_range _ Hrange) as (Hquantity & Hreturns).
  destruct Hreturns as [items Hitems]; [repeat constructor|].
  exists items. split; [exact Hitems | exact (Hquantity items Hitems)].
Defined.

(** C4 as it is stated fails, in three ways.  A product added with the
    quantity -2 has a line of quantity -2; a line of stock 0 asked for the
    quantity 2 stays, with the quantity 0; and a line asked for the
    quantity 1/2 has it. *)
Lemma quantity_below_one_reached :
  (exists line,
      updates [AddToCart productX (Num (int (-2)))] [] = Returns [line] /\
      line.(quantity) = int (-2) /\
      num_leb (int 1) line.(quantity) = false) /\
  (exists line,
      updates [AddToCart product_out_of_stock (Num (int 1));
               UpdateQuantity (int 2) (int 2)] [] = Returns [line] /\
      line.(quantity) = int 0 /\
      num_leb (int 1) line.(quantity) = false) /\
  (exists line,
      updates [AddToCart productX (Num (int 1));
               UpdateQuantity (int 1) (Fin (1 # 2))] [] = Returns [line] /\
      line.(quantity) = Fin (1 # 2) /\
      num_leb (int 1) line.(quantity) = false).
Proof.
  split; [|split]; eexists; (split; [vm_compute; reflexivity|]); split; reflexivity.
Qed.

(** ** What [addToCart] inserts *)

Lemma addToCart_new_line_never_throws (product : object) (qty : value)
    (items : list CartItem) (e : exn) :
  List.find (fun item => strict_eq_num item.(id) (prop product "id")) items = None ->
  addToCart product qty items <> Throws e.
Proof.
  intros Hfind. unfold addToCart. rewrite Hfind.
  destruct (sanitizeCartItem _) eqn:E; try discriminate.
  now apply sanitizeCartItem_object_never_throws in E.
Qed.

Lemma numeric_field_unusable v :
  unusable v = true -> numeric_field v 0 = Returns (int 0).
Proof.
  destruct v as [| |b|n|s|l|m]; try discriminate; try reflexivity; simpl.
  - intros H. rewrite numeric_field_number, H. reflexivity.
  - intros H. rewrite numeric_field_string, H. now destruct (String.eqb s "").
Qed.

Lemma numeric_field_unusable_quantity v :
  unusable v = true ->
  numeric_field v 1 = Returns (int (if is_text v then 0 else 1)).
Proof.
  destruct v as [| |b|n|s|l|m]; try discriminate; try reflexivity; simpl.
  - intros H. rewrite numeric_field_number, H. reflexivity.
  - intros H. rewrite numeric_field_string, H. now destruct (String.eqb s "").
Qed.

Lemma numeric_field_repairable v d :
  repairable v = true -> exists n, numeric_field v d = Returns n.
Proof.
  destruct v as [| |b|n|s|l|m]; try discriminate; intros _.
  - eauto using numeric_field_absent.
  - eauto using numeric_field_null.
  - eauto using numeric_field_number.
  - eauto using numeric_field_string.
Qed.

Lemma string_field_nameable v :
  nameable v = true -> exists s, string_field v = Returns s.
Proof.
  destruct v as [| |b|n|s|l|m]; try discriminate; intros _.
  - eauto using string_field_absent.
  - exists "". reflexivity.
  - eauto using string_field_string.
Qed.

(** C7, as the program has it, for a product that has no line in the
    cart.  [addToCart] does not throw.  In the line it inserts, a price or
    a stock from which the sanitiser gets no number is 0; a quantity from
    which it gets none is 0 when it is a string that is not empty, and 1,
    the default, otherwise.  And it returns when the id, the price, the
    stock, the seller and the quantity are each a number, a string, [null]
    or absent, and the name and the file name a string, [null] or
    absent. *)
Theorem addToCart_collapses_unusable
    (product : object) (qty : value) (items : list CartItem) :
  List.find (fun item => strict_eq_num item.(id) (prop product "id")) items = None ->
  (forall e, addToCart product qty items <> Throws e) /\
  (forall items',
      addToCart product qty items = Returns items' ->
      exists line,
        items' = items ++ [line] /\
        (unusable (prop product "price") = true -> line.(price) = int 0) /\
        (unusable (prop product "stock") = true -> line.(stock) = int 0) /\
        (unusable qty = true ->
         line.(quantity) = int (if is_text qty then 0 else 1))) /\
  (repairable (prop product "id") = true ->
   nameable (prop product "name") = true ->
   repairable (prop product "price") = true ->
   nameable (prop product "fileName") = true ->
   repairable (prop product "stock") = true ->
   repairable (prop product "sellerId") = true ->
   repairable qty = true ->
   exists items', addToCart product qty items = Returns items').
Proof.
  intros Hfind. split; [|split].
  - intros e. now apply addToCart_new_line_never_throws.
  - intros items' Hadd.
    destruct (addToCart_new_line _ _ _ _ Hfind Hadd) as (line & Hline & ->).
    exists line. split; [reflexivity|].
    apply sanitizeCartItem_object_fields in Hline
      as (_ & _ & Hprice & Hquantity & _ & Hstock & _).
    rewrite prop_quantity_set in Hquantity.
    rewrite prop_other_set in Hprice, Hstock by discriminate.
    split; [|split].
    + intros H. rewrite numeric_field_unusable in Hprice by assumption. congruence.
    + intros H. rewrite numeric_field_unusable in Hstock by assumption. congruence.
    + intros H.
      assert (Hq : numeric_field
                     match qty with Undefined => Num (int 1) | _ => qty end 1
                   = Returns (int (if is_text qty then 0 else 1))).
      { destruct qty; try discriminate;
          solve [reflexivity | now apply numeric_field_unusable_quantity]. }
      congruence.
  - intros Hid Hname Hprice Hfile Hstock Hseller Hqty.
    unfold addToCart. rewrite Hfind.
    rewrite sanitizeCartItem_object, prop_quantity_set.
    rewrite !prop_other_set by discriminate.
    destruct (numeric_field_repairable _ 0 Hid) as [? ->].
    destruct (string_field_nameable _ Hname) as [? ->].
    destruct (numeric_field_repairable _ 0 Hprice) as [? ->].
    assert (Hq : repairable match qty with Undefined => Num (int 1) | _ => qty end = true)
      by (destruct qty; try discriminate; reflexivity).
    destruct (numeric_field_repairable _ 1 Hq) as [? ->].
    destruct (string_field_nameable _ Hfile) as [? ->].
    destruct (numeric_field_repairable _ 0 Hstock) as [? ->].
    destruct (numeric_field_repairable _ 0 Hseller) as [? ->].
    simpl. eauto.
Qed.

(** The product whose price is ["n/a"] and whose stock is ["many"], added
    with the quantity ["two"] to a cart with scenario B's line. *)
Example addToCart_unpriced :
  addToCart product_unpriced (Str "two") [scenarioB_line]
  = Returns [scenarioB_line;
             {| id := int 3; name := "Z"; price := int 0; quantity := int 0;
                fileName := ""; stock := int 0; sellerId := int 0 |}].
Proof. vm_compute. reflexivity. Qed.

(** C7 on that product and that cart. *)
Lemma addToCart_collapses_unusable_witness :
  (forall e, addToCart product_unpriced (Str "two") [scenarioB_line] <> Throws e) /\
  (forall items',
      addToCart product_unpriced (Str "two") [scenarioB_line] = Returns items' ->
      exists line,
        items' = [scenarioB_line] ++ [line] /\
        (unusable (prop product_unpriced "price") = true -> line.(price) = int 0) /\
        (unusable (prop product_unpriced "stock") = true -> line.(stock) = int 0) /\
        (unusable (Str "two") = true ->
         line.(quantity) = int (if is_text (Str "two") then 0 else 1))) /\
  (repairable (prop product_unpriced "id") = true ->
   nameable (prop product_unpriced "name") = true ->
   repairable (prop product_unpriced "price") = true ->
   nameable (prop product_unpriced "fileName") = true ->
   repairable (prop product_unpriced "stock") = true ->
   repairable (prop product_unpriced "sellerId") = true ->
   repairable (Str "two") = true ->
   exists items',
     addToCart product_unpriced (Str "two") [scenarioB_line] = Returns items').
Proof.
  apply (addToCart_collapses_unusable product_unpriced (Str "two") [scenarioB_line]).
  reflexivity.
Defined.

(** White space before the number is skipped, the no-break space U+00A0
    as the space: such a price is usable. *)
Example addToCart_price_after_white_space :
  unusable (Str (String "194" (String "160" " 12"))) = false /\
  exists line,
    addToCart (<["price" := Str (String "194" (String "160" " 12"))]> productX)
              Undefined []
    = Returns [line] /\
    line.(price) = int 12.
Proof. split; [reflexivity|]. eexists. split; vm_compute; reflexivity. Qed.

(** For a product that has a line the quantity is not sanitised, and
    [addToCart] throws when the quantity cannot be added: here an object
    that owns a [toString], alone and inside an array. *)
Example addToCart_existing_line_throws :
  addToCart product7 (Obj {["toString" := Null]}) [scenarioB_line]
  = Throws TypeError /\
  addToCart product7 (Arr [Num (int 1); Obj {["toString" := Null]}]) [scenarioB_line]
  = Throws TypeError.
Proof. split; vm_compute; reflexivity. Qed.

(** C7 as it is stated fails for the quantity: [NaN], the empty string
    and [null] are replaced by the default, 1, and not by 0. *)
Lemma unusable_quantity_becomes_one :
  (exists line,
      addToCart productX (Num NaN) [] = Returns [line] /\
      line.(quantity) = int 1 /\ line.(quantity) <> int 0) /\
  (exists line,
      addToCart productX (Str "") [] = Returns [line] /\
      line.(quantity) = int 1 /\ line.(quantity) <> int 0) /\
  (exists line,
      addToCart productX Null [] = Returns [line] /\
      line.(quantity) = int 1 /\ line.(quantity) <> int 0).
Proof.
  split; [|split]; eexists; (split; [vm_compute; reflexivity|]);
    split; [reflexivity | discriminate | reflexivity | discriminate
            | reflexivity | discriminate].
Qed.

(** ** The load effect, the save effect and [clearCart] *)







Lemma dispatches_ClearCart (n : nat) (p : provider) :
  dispatches (repeat ClearCart (S n)) p
  = Returns {| cartItems := []; localStorage := Some (Json (Arr [])) |}.
Proof.
  revert p. induction n as [|n IH]; intros p; [reflexivity|].
  change (dispatches (repeat ClearCart (S (S n))) p)
    with (dispatches (repeat ClearCart (S n))
            {| cartItems := []; localStorage := Some (Json (Arr [])) |}).
  apply IH.
Qed.

(** C9, as the program has it.  [clearCart] sets the collection to the
    empty one and removes the key; the save effect of the render that
    follows writes the empty array under the key.  So after each of two
    calls in a row, and after any number of them, the collection is empty
    and the key holds the text [[]], which a later mount reads as the
    empty collection. *)
Theorem clearCart_twice (p : provider) :
  clearCart p = {| cartItems := []; localStorage := None |} /\
  clearCart (clearCart p) = clearCart p /\
  dispatch ClearCart p
    = Returns {| cartItems := []; localStorage := Some (Json (Arr [])) |} /\
  dispatches [ClearCart; ClearCart] p = dispatch ClearCart p /\
  (forall n : nat,
      dispatches (repeat ClearCart (S n)) p
      = Returns {| cartItems := []; localStorage := Some (Json (Arr [])) |}) /\
  JSON_stringify [] = Json (Arr []) /\
  mount (Some (Json (Arr [])))
    = Returns {| cartItems := []; localStorage := Some (Json (Arr [])) |}.
Proof.
  repeat split. intros n. apply dispatches_ClearCart.
Qed.

(** C9 as it is stated fails: after a call of [clearCart] and the render
    it causes, the key is not absent. *)
Lemma clearCart_leaves_empty_array :
  exists p,
    dispatch ClearCart
      {| cartItems := [scenarioB_line];
         localStorage := Some (JSON_stringify [scenarioB_line]) |} = Returns p /\
    p.(cartItems) = [] /\
    p.(localStorage) = Some (Json (Arr [])) /\
    p.(localStorage) <> None.
Proof.
  eexists. split; [reflexivity|]. repeat split. discriminate.
Qed.

(** After every action the key holds the text of the collection, and the
    collection is the one the action's updater gives. *)
Lemma dispatch_mirrors (a : action) (p p' : provider) :
  dispatch a p = Returns p' ->
  update a p.(cartItems) = Returns p'.(cartItems) /\
  p'.(localStorage) = Some (JSON_stringify p'.(cartItems)).
Proof.
  unfold dispatch, handle.
  destruct a; simpl; try (intros [= <-]; split; reflexivity).
  destruct (addToCart product qty (cartItems p)); try discriminate.
  simpl. intros [= <-]. split; reflexivity.
Qed.

Lemma dispatches_mirror (actions : list action) (p p' : provider) :
  dispatches actions p = Returns p' ->
  updates actions p.(cartItems) = Returns p'.(cartItems).
Proof.
  revert p. induction actions as [|a actions IH]; intros p; simpl.
  - now intros [= <-].
  - destruct (dispatch a p) as [p1| |] eqn:E; try discriminate. simpl.
    apply dispatch_mirrors in E as [-> _]. simpl. apply IH.
Qed.

(** ** Writing the collection and reading it back *)

Lemma lowest_terms_zero (q : Q) :
  lowest_terms q = true -> Qeq_bool q 0 = true -> q = 0%Q.
Proof.
  unfold lowest_terms. rewrite andb_true_iff, Z.eqb_eq, Pos.eqb_eq.
  intros [Hn Hd] Hz. apply Qeq_bool_iff in Hz.
  apply Qred_complete in Hz.
  destruct q as [n d]. destruct (Qred (n # d)) as [n' d'] eqn:E.
  simpl in Hn, Hd. subst n' d'. exact Hz.
Qed.

Lemma numeric_field_finite (n : number) :
  finite n = true -> numeric_field (json_number n) 0 = Returns n.
Proof.
  destruct n as [| | |q]; try discriminate. simpl. intros Hq.
  rewrite numeric_field_number. simpl.
  destruct (Qeq_bool q 0) eqn:Hz; [|reflexivity].
  now rewrite (lowest_terms_zero q Hq Hz).
Qed.

Lemma numeric_field_finite_quantity (n : number) :
  finite n = true -> is_zero n = false ->
  numeric_field (json_number n) 1 = Returns n.
Proof.
  destruct n as [| | |q]; try discriminate. simpl. intros _ Hz.
  rewrite numeric_field_number. simpl. now rewrite Hz.
Qed.

Lemma sanitizeCartItem_json_item (item : CartItem) :
  storable item = true -> sanitizeCartItem (json_item item) = Returns item.
Proof.
  unfold storable. rewrite !andb_true_iff, negb_true_iff.
  intros (((((Hid & Hprice) & Hquantity) & Hnonzero) & Hstock) & Hseller).
  unfold json_item. rewrite sanitizeCartItem_object.
  change (prop _ "id") with (json_number item.(id)).
  change (prop _ "name") with (Str item.(name)).
  change (prop _ "price") with (json_number item.(price)).
  change (prop _ "quantity") with (json_number item.(quantity)).
  change (prop _ "fileName") with (Str item.(fileName)).
  change (prop _ "stock") with (json_number item.(stock)).
  change (prop _ "sellerId") with (json_number item.(sellerId)).
  rewrite !numeric_field_finite, numeric_field_finite_quantity, !string_field_string
    by assumption.
  simpl. now destruct item.
Qed.

Lemma sanitizeCartData_stringify (items : list CartItem) :
  Forall (fun item => storable item = true) items ->
  map_outcome sanitizeCartItem (map json_item items) = Returns items.
Proof.
  induction 1 as [|item items Hitem _ IH]; simpl; [reflexivity|].
  now rewrite sanitizeCartItem_json_item, IH.
Qed.

(** C8, as the program has it.  For a collection whose lines have
    finite numbers and a quantity that is not zero, the load effect on the
    text that [JSON.stringify] writes of the collection sets the state to
    that very collection, and keeps the text; so does the mount. *)
Theorem stringify_then_load (items shown : list CartItem) :
  Forall (fun item => storable item = true) items ->
  load_effect {| cartItems := shown; localStorage := Some (JSON_stringify items) |}
    = Returns {| cartItems := items; localStorage := Some (JSON_stringify items) |} /\
  mount (Some (JSON_stringify items))
    = Returns {| cartItems := items; localStorage := Some (JSON_stringify items) |}.
Proof.
  intros H.
  assert (Hload : forall l,
             load_effect {| cartItems := l; localStorage := Some (JSON_stringify items) |}
             = Returns {| cartItems := items;
                          localStorage := Some (JSON_stringify items) |}).
  { intros l. unfold load_effect. simpl.
    now rewrite sanitizeCartData_stringify. }
  split; [apply Hload|].
  unfold mount. now rewrite Hload.
Qed.

(** C8 on the two lines of the scenarios. *)
Lemma stringify_then_load_witness :
  load_effect {| cartItems := [];
                 localStorage := Some (JSON_stringify [scenarioB_line; desk_line]) |}
    = Returns {| cartItems := [scenarioB_line; desk_line];
                 localStorage := Some (JSON_stringify [scenarioB_line; desk_line]) |}.
Proof.
  apply (stringify_then_load [scenarioB_line; desk_line] []).
  repeat constructor.
Defined.

(** C8 as it is stated fails.  The collection of one line with the
    quantity 0 is reached by adding a product that is out of stock and
    asking for the quantity 2 of it; what is written of it is read back as
    a line with the quantity 1.  And a line with the quantity [NaN], which
    is written as [null], is read back with the quantity 1 too. *)
Lemma zero_quantity_is_read_as_one :
  updates [AddToCart product_out_of_stock Undefined;
           UpdateQuantity (int 2) (int 2)] [] = Returns [exhausted_line] /\
  load_effect {| cartItems := [];
                 localStorage := Some (JSON_stringify [exhausted_line]) |}
    = Returns {| cartItems := [with_quantity exhausted_line (int 1)];
                 localStorage := Some (JSON_stringify [exhausted_line]) |} /\
  [with_quantity exhausted_line (int 1)] <> [exhausted_line] /\
  load_effect {| cartItems := [];
                 localStorage := Some (JSON_stringify [with_quantity desk_line NaN]) |}
    = Returns {| cartItems := [with_quantity desk_line (int 1)];
                 localStorage := Some (JSON_stringify [with_quantity desk_line NaN]) |}.
Proof.
  split; [vm_compute; reflexivity|].
  split; [vm_compute; reflexivity|].
  split; [discriminate|].
  vm_compute; reflexivity.
Qed.

(** ** The scenarios of the specification *)

(** Scenario A: the product [{id:1, name:"X", price:10, stock:5}] added
    with the quantity 2, then again with the quantity 1. *)
Example scenario_A :
  (exists items,
      updates [AddToCart productX (Num (int 2))] [] = Returns items /\
      totalPrice items = int 20 /\ itemCount items = int 2) /\
  (exists items,
      updates [AddToCart productX (Num (int 2)); AddToCart productX (Num (int 1))] []
      = Returns items /\
      length items = 1%nat /\
      totalPrice items = int 30 /\ itemCount items = int 3).
Proof.
  split; eexists; (split; [vm_compute; reflexivity|]); repeat split.
Qed.

(** Scenario C: the quantity 0 asked of the one line of a cart. *)
Example scenario_C :
  updateQuantity (int 7) (int 0) [scenarioB_line] = [] /\
  itemCount (updateQuantity (int 7) (int 0) [scenarioB_line]) = int 0.
Proof. split; reflexivity. Qed.

(** Scenario D: removing an id that has no line. *)
Example scenario_D :
  removeFromCart (int 9) [scenarioB_line; desk_line] = [scenarioB_line; desk_line].
Proof. reflexivity. Qed.

(** * More of the cart store *)

From Stdlib Require Qcanon.

(** ** Ids *)

Lemma distinct_filter (f : CartItem -> bool) (items : list CartItem) :
  distinct (map id items) = true ->
  distinct (map id (List.filter f items)) = true.
Proof.
  induction items as [|item items IH]; simpl; [reflexivity|].
  intros H. apply andb_true_iff in H as [Hitem Hrest].
  destruct (f item); simpl; [|now apply IH].
  apply andb_true_iff. split; [|now apply IH].
  rewrite forallb_forall in *. intros m Hm. apply Hitem.
  apply in_map_iff in Hm as (other & <- & Hin).
  apply in_map. apply filter_In in Hin. tauto.
Qed.

Lemma update_unique (a : action) (items items' : list CartItem) :
  numbered a = true ->
  unique_ids items = true ->
  update a items = Returns items' ->
  unique_ids items' = true.
Proof.
  intros Ha Hu. destruct a as [product qty|productId|productId q|]; simpl.
  - now apply addToCart_unique.
  - intros [= <-]. now apply distinct_filter.
  - intros [= <-]. unfold updateQuantity.
    destruct (num_leb q (int 0)); [now apply distinct_filter|].
    unfold unique_ids. rewrite map_map.
    erewrite map_ext; [exact Hu|].
    intros item. simpl. now destruct (num_eqb (id item) productId).
  - now intros [= <-].
Qed.

(** X1. Whatever the actions, adding, removing, setting a quantity and
    clearing in any order, the collection reached from the empty one has
    no two lines with the same id, when the products added have a number
    for their id. *)
Theorem actions_keep_ids_unique (actions : list action) :
  Forall (fun a => numbered a = true) actions ->
  forall items, updates actions [] = Returns items -> unique_ids items = true.
Proof.
  intros H.
  assert (G : forall start items,
             unique_ids start = true ->
             updates actions start = Returns items -> unique_ids items = true).
  { induction H as [|a actions Ha _ IH]; intros start items Hs; simpl.
    - now intros [= <-].
    - destruct (update a start) as [items1| |] eqn:E; try discriminate.
      simpl. apply IH. eapply update_unique; eassumption. }
  intros items. now apply G.
Qed.

(** X1 on two products added, one of them twice, a quantity set and a
    line removed. *)
Lemma actions_keep_ids_unique_witness :
  exists items,
    updates [AddToCart productX (Num (int 2)); AddToCart product7 Undefined;
             UpdateQuantity (int 1) (int 4); AddToCart productX (Num (int 1));
             RemoveFromCart (int 7)] [] = Returns items /\
    unique_ids items = true.
Proof.
  eexists. split; [vm_compute; reflexivity|].
  apply (actions_keep_ids_unique
           [AddToCart productX (Num (int 2)); AddToCart product7 Undefined;
            UpdateQuantity (int 1) (int 4); AddToCart productX (Num (int 1));
            RemoveFromCart (int 7)]).
  - repeat constructor.
  - vm_compute. reflexivity.
Defined.

Lemma filter_all {A} (f : A -> bool) (l : list A) :
  Forall (fun x => f x = true) l -> List.filter f l = l.
Proof.
  induction 1 as [|x l Hx _ IH]; simpl; [reflexivity|].
  now rewrite Hx, IH.
Qed.

(** X2. An id that has no line: [removeFromCart] of it and
    [updateQuantity] of it, with any quantity, give back the collection as
    it was. *)
Theorem absent_id_changes_nothing (productId : number) (items : list CartItem) :
  Forall (fun item => num_eqb item.(id) productId = false) items ->
  removeFromCart productId items = items /\
  forall q, updateQuantity productId q items = items.
Proof.
  intros H.
  assert (Hremove : removeFromCart productId items = items).
  { apply filter_all. eapply Forall_impl; [eassumption|].
    intros item Hitem. simpl in Hitem. now rewrite Hitem. }
  split; [exact Hremove|].
  intros q. unfold updateQuantity.
  destruct (num_leb q (int 0)); [exact Hremove|].
  rewrite <- (map_id items) at 2. apply map_ext_Forall.
  eapply Forall_impl; [eassumption|].
  intros item Hitem. simpl in Hitem. now rewrite Hitem.
Qed.

(** X2 on the two lines of the scenarios and the id 9. *)
Lemma absent_id_changes_nothing_witness :
  removeFromCart (int 9) [scenarioB_line; desk_line] = [scenarioB_line; desk_line] /\
  forall q, updateQuantity (int 9) q [scenarioB_line; desk_line]
            = [scenarioB_line; desk_line].
Proof.
  apply (absent_id_changes_nothing (int 9) [scenarioB_line; desk_line]).
  repeat constructor.
Defined.

(** ** Quantities *)

Lemma Math_min_below_right a b :
  isNaN a = false -> isNaN b = false -> num_leb (Math_min a b) b = true.
Proof.
  destruct a, b; simpl; try congruence; intros _ _.
  - apply Qle_bool_iff. apply Qle_refl.
  - destruct (Qle_bool q q0) eqn:E; simpl; [exact E|].
    apply Qle_bool_iff. apply Qle_refl.
Qed.

Lemma Math_min_below_left a b :
  isNaN a = false -> isNaN b = false -> num_leb (Math_min a b) a = true.
Proof.
  destruct a, b; simpl; try congruence; intros _ _.
  - apply Qle_bool_iff. apply Qle_refl.
  - destruct (Qle_bool q q0) eqn:E; simpl.
    + apply Qle_bool_iff. apply Qle_refl.
    + apply Qle_bool_iff.
      destruct (Qlt_le_dec q0 q) as [Hlt|Hle].
      * now apply Qlt_le_weak.
      * apply Qle_bool_iff in Hle. congruence.
Qed.

(** X3. After [updateQuantity] with a quantity above 0, a line with the
    given id whose stock is a number has a quantity that is neither above
    its stock nor above the quantity asked. *)
Theorem updateQuantity_never_above_stock
    (productId q : number) (items : list CartItem) (i : nat) (item : CartItem) :
  num_ltb (int 0) q = true ->
  nth_error items i = Some item ->
  num_eqb item.(id) productId = true ->
  isNaN item.(stock) = false ->
  exists item',
    nth_error (updateQuantity productId q items) i = Some item' /\
    num_leb item'.(quantity) item.(stock) = true /\
    num_leb item'.(quantity) q = true.
Proof.
  intros Hq Hi Hid Hstock.
  assert (HqNaN : isNaN q = false) by (destruct q; simpl in *; congruence).
  rewrite updateQuantity_positive by now apply num_ltb_not_leb.
  rewrite nth_error_map, Hi. simpl. rewrite Hid.
  eexists. split; [reflexivity|]. simpl.
  split; [now apply Math_min_below_right | now apply Math_min_below_left].
Qed.

(** X3 on scenario B's line, of stock 3, asked for the quantity 10. *)
Lemma updateQuantity_never_above_stock_witness :
  exists item',
    nth_error (updateQuantity (int 7) (int 10) [scenarioB_line]) 0 = Some item' /\
    num_leb item'.(quantity) (int 3) = true /\
    num_leb item'.(quantity) (int 10) = true.
Proof.
  apply (updateQuantity_never_above_stock (int 7) (int 10) [scenarioB_line]
           0%nat scenarioB_line); reflexivity.
Defined.

(** X4. [updateQuantity] twice with the same arguments is
    [updateQuantity] once. *)
Theorem updateQuantity_idempotent (productId q : number) (items : list CartItem) :
  updateQuantity productId q (updateQuantity productId q items)
  = updateQuantity productId q items.
Proof.
  unfold updateQuantity. destruct (num_leb q (int 0)).
  - apply filter_filter_same.
  - rewrite map_map. apply map_ext. intros item.
    destruct (num_eqb (id item) productId) eqn:E; simpl; now rewrite E.
Qed.

(** X5. A product whose id is a number and has no line is added, then
    removed by its id: the collection is the one before. *)
Theorem addToCart_then_removeFromCart
    (product : object) (qty : value) (n : number) (items items' : list CartItem) :
  prop product "id" = Num n ->
  isNaN n = false ->
  Forall (fun item => num_eqb item.(id) n = false) items ->
  addToCart product qty items = Returns items' ->
  removeFromCart n items' = items /\
  length items' = S (length items).
Proof.
  intros Hid Hn Habsent Hadd.
  assert (Hnum : number_id product = true)
    by (unfold number_id; rewrite Hid; now rewrite Hn).
  assert (Hfind : List.find (fun item => strict_eq_num item.(id) (prop product "id"))
                            items = None).
  { destruct (List.find _ items) as [y|] eqn:E; [|reflexivity].
    apply find_some in E as [Hin Hy]. rewrite Hid in Hy. simpl in Hy.
    rewrite List.Forall_forall in Habsent. rewrite (Habsent y Hin) in Hy.
    discriminate. }
  destruct (addToCart_new_line _ _ _ _ Hfind Hadd) as (line & Hline & ->).
  apply inserted_id_is_looked_up in Hline; [|assumption].
  rewrite Hid in Hline. simpl in Hline.
  split; [|rewrite length_app; simpl; lia].
  unfold removeFromCart. rewrite List.filter_app. simpl. rewrite Hline. simpl.
  rewrite app_nil_r. apply filter_all.
  eapply Forall_impl; [eassumption|].
  intros item Hitem. simpl in Hitem. now rewrite Hitem.
Qed.

(** X5 on the product with the id 1 and a cart with scenario B's line. *)
Lemma addToCart_then_removeFromCart_witness :
  exists items',
    addToCart productX (Num (int 2)) [scenarioB_line] = Returns items' /\
    removeFromCart (int 1) items' = [scenarioB_line] /\
    length items' = 2%nat.
Proof.
  eexists. split; [vm_compute; reflexivity|].
  apply (addToCart_then_removeFromCart productX (Num (int 2)) (int 1)
           [scenarioB_line]).
  - reflexivity.
  - reflexivity.
  - repeat constructor.
  - vm_compute. reflexivity.
Defined.

(** ** The mirror, and a reload *)

Lemma dispatch_as_update (a : action) (p : provider) :
  dispatch a p =
  (items ← update a p.(cartItems);
   Returns {| cartItems := items; localStorage := Some (JSON_stringify items) |}).
Proof.
  unfold dispatch, handle. destruct a; simpl; try reflexivity.
  destruct (addToCart product qty (cartItems p)); reflexivity.
Qed.

Lemma dispatches_as_updates (a : action) (actions : list action) (p : provider) :
  dispatches (a :: actions) p =
  (items ← updates (a :: actions) p.(cartItems);
   Returns {| cartItems := items; localStorage := Some (JSON_stringify items) |}).
Proof.
  revert a p. induction actions as [|b actions IH]; intros a p.
  - simpl. rewrite dispatch_as_update.
    destruct (update a (cartItems p)); reflexivity.
  - change (dispatches (a :: b :: actions) p)
      with (p' ← dispatch a p; dispatches (b :: actions) p').
    change (updates (a :: b :: actions) (cartItems p))
      with (items' ← update a (cartItems p); updates (b :: actions) items').
    rewrite dispatch_as_update.
    destruct (update a (cartItems p)) as [items1| |]; try reflexivity.
    change (dispatches (b :: actions)
              {| cartItems := items1; localStorage := Some (JSON_stringify items1) |}
            = (items ← updates (b :: actions) items1;
               Returns {| cartItems := items;
                          localStorage := Some (JSON_stringify items) |})).
    now rewrite IH.
Qed.

Lemma lowest_terms_iff (q : Q) : lowest_terms q = true <-> Qred q = q.
Proof.
  unfold lowest_terms. rewrite andb_true_iff, Z.eqb_eq, Pos.eqb_eq.
  split.
  - intros [Hn Hd]. destruct q as [n d], (Qred (n # d)) as [n' d'].
    simpl in *. now subst.
  - intros ->. split; reflexivity.
Qed.

Lemma finite_int (z : Z) : finite (int z) = true.
Proof.
  simpl. apply lowest_terms_iff. apply Qcanon.Qred_identity. simpl. apply Z.gcd_1_r.
Qed.

Lemma finite_Qred (q : Q) : finite (Fin (Qred q)) = true.
Proof. simpl. apply lowest_terms_iff. apply Qcanon.Qred_involutive. Qed.

Lemma finite_num_add a b :
  finite a = true -> finite b = true -> finite (num_add a b) = true.
Proof. destruct a, b; try discriminate. intros _ _. apply finite_Qred. Qed.

Lemma finite_Math_min a b :
  finite a = true -> finite b = true -> finite (Math_min a b) = true.
Proof.
  destruct a, b; try discriminate. simpl. intros Ha Hb.
  now destruct (Qle_bool q q0).
Qed.

Lemma kept_with_quantity (item : CartItem) (q : number) :
  kept item -> finite q = true -> num_leb (int 1) q = true ->
  kept (with_quantity item q).
Proof.
  intros [Hs [_ Hstock]] Hq Hq1. split; [|split; assumption].
  unfold storable in *. simpl.
  rewrite !andb_true_iff in *.
  destruct Hs as (((((Hid & Hprice) & _) & _) & Hst) & Hseller).
  repeat split; try assumption.
  apply negb_true_iff.
  pose proof (at_least_one_truthy q Hq1) as H.
  apply orb_false_iff in H. tauto.
Qed.

Lemma numeric_field_finite_value (v : value) (d : Z) :
  is_finite v = true \/ is_absent v = true ->
  exists n, numeric_field v d = Returns n /\ finite n = true.
Proof.
  intros [H|H]; destruct v; try discriminate.
  - rewrite numeric_field_number.
    destruct (isNaN n || is_zero n); eauto using finite_int.
  - rewrite numeric_field_absent. eauto using finite_int.
Qed.

Lemma addToCart_kept (product : object) (qty : value)
    (items items' : list CartItem) :
  clean (AddToCart product qty) = true ->
  Forall kept items ->
  addToCart product qty items = Returns items' ->
  Forall kept items'.
Proof.
  unfold clean. rewrite !andb_true_iff.
  intros [[_ Hrange] ((((Hid & Hprice) & Hstock) & Hseller) & Hqty)] Hitems Hadd.
  assert (Hstocked : Forall stocked items')
    by (eapply addToCart_stocked; try eassumption;
        eapply Forall_impl; [eassumption | now intros ? [_ ?]]).
  pose proof Hrange as Hrange'. simpl in Hrange'.
  apply andb_true_iff in Hrange' as [Hq Hs].
  assert (Hn : exists n,
             match qty with Undefined => Num (int 1) | _ => qty end = Num n /\
             num_leb (int 1) n = true /\ finite n = true).
  { apply orb_true_iff in Hqty. apply orb_true_iff in Hq.
    destruct qty; try (destruct Hqty; discriminate).
    - exists (int 1). repeat split.
    - exists n. destruct Hq as [?|?]; [discriminate|].
      destruct Hqty as [?|?]; [|discriminate]. repeat split; assumption. }
  destruct Hn as (n & Hn & Hn1 & Hnf).
  destruct (List.find (fun item => strict_eq_num item.(id) (prop product "id")) items)
    as [y|] eqn:Hfind.
  - unfold addToCart in Hadd. rewrite Hfind, Hn in Hadd. simpl in Hadd.
    injection Hadd as <-.
    apply Forall_map. eapply Forall_impl; [eassumption|].
    intros item Hkept. simpl.
    destruct (strict_eq_num _ _); [|assumption].
    destruct Hkept as [Hst [Hq1 Hs1]].
    apply kept_with_quantity; [now split| |now apply num_add_at_least_one].
    apply finite_num_add; [|assumption].
    unfold storable in Hst. rewrite !andb_true_iff in Hst. tauto.
  - destruct (addToCart_new_line _ _ _ _ Hfind Hadd) as (line & Hline & ->).
    apply Forall_app. split; [assumption|]. constructor; [|constructor].
    apply Forall_app in Hstocked as [_ Hlast]. inversion Hlast as [|? ? Hl _]; subst.
    split; [|assumption].
    apply sanitizeCartItem_object_fields in Hline
      as (Hlid & _ & Hlprice & Hlq & _ & Hlstock & Hlseller).
    rewrite prop_quantity_set, Hn in Hlq.
    rewrite prop_other_set in Hlid, Hlprice, Hlstock, Hlseller by discriminate.
    destruct (numeric_field_finite_value _ 0 (or_introl Hid)) as (? & E1 & F1).
    destruct (numeric_field_finite_value _ 0 (or_introl Hprice)) as (? & E2 & F2).
    destruct (numeric_field_finite_value _ 0 (or_introl Hstock)) as (? & E3 & F3).
    apply orb_true_iff in Hseller.
    destruct (numeric_field_finite_value _ 0 Hseller) as (? & E4 & F4).
    rewrite numeric_field_at_least_one in Hlq by assumption.
    rewrite E1 in Hlid. rewrite E2 in Hlprice. rewrite E3 in Hlstock.
    rewrite E4 in Hlseller.
    injection Hlid as Hlid. injection Hlprice as Hlprice.
    injection Hlstock as Hlstock. injection Hlseller as Hlseller.
    injection Hlq as Hlq.
    unfold storable. rewrite <- Hlid, <- Hlprice, <- Hlstock, <- Hlseller, <- Hlq.
    rewrite F1, F2, F3, F4, Hnf. simpl.
    pose proof (at_least_one_truthy n Hn1) as H.
    apply orb_false_iff in H as [_ ->]. reflexivity.
Qed.

Lemma update_kept (a : action) (items items' : list CartItem) :
  clean a = true ->
  Forall kept items ->
  update a items = Returns items' ->
  Forall kept items'.
Proof.
  intros Ha Hitems. destruct a as [product qty|productId|productId q|]; simpl.
  - now apply addToCart_kept.
  - intros [= <-]. now apply removeFromCart_Forall.
  - intros [= <-]. unfold clean in Ha. rewrite !andb_true_iff in Ha.
    destruct Ha as [[_ Hrange] Hq]. simpl in Hrange.
    unfold updateQuantity. destruct (num_leb q (int 0)) eqn:E.
    + now apply removeFromCart_Forall.
    + simpl in Hrange. apply Forall_map. eapply Forall_impl; [eassumption|].
      intros item Hkept. simpl.
      destruct (num_eqb _ _); [|assumption].
      pose proof Hkept as [Hst [_ Hs1]].
      unfold storable in Hst. rewrite !andb_true_iff in Hst.
      apply kept_with_quantity; [assumption| |now apply Math_min_at_least].
      apply finite_Math_min; tauto.
  - intros [= <-]. constructor.
Qed.

Lemma updates_kept (actions : list action) (items items' : list CartItem) :
  Forall (fun a => clean a = true) actions ->
  Forall kept items ->
  updates actions items = Returns items' ->
  Forall kept items'.
Proof.
  intros H. revert items.
  induction H as [|a actions Ha _ IH]; intros items Hitems; simpl.
  - now intros [= <-].
  - destruct (update a items) as [items1| |] eqn:E; try discriminate.
    simpl. apply IH. eapply update_kept; eassumption.
Qed.

(** X7. A reload gives the cart back.  The actions are clean and the
    quantities they ask for add up to 2^53 at most, so that no sum of the
    program leaves the finite numbers.  From a provider mounted over no
    key, through the actions, a provider is reached; and mounting a
    provider over the key it has left gives that provider again, the same
    lines in the same order and the same text under the key. *)
Theorem reload_gives_the_cart_back (actions : list action) :
  Forall (fun a => clean a = true) actions ->
  num_leb (total_asked actions) (int (2 ^ 53)) = true ->
  exists first p,
    mount None = Returns first /\
    dispatches actions first = Returns p /\
    mount p.(localStorage) = Returns p.
Proof.
  intros H _.
  exists {| cartItems := []; localStorage := Some (JSON_stringify []) |}.
  destruct actions as [|a actions].
  - eexists. repeat split.
  - assert (Hd : Forall (fun a => declared a = true) (a :: actions)).
    { eapply Forall_impl; [exact H|]. intros b Hb. simpl in Hb.
      unfold clean in Hb. rewrite !andb_true_iff in Hb. tauto. }
    destruct (updates_declared_return (a :: actions) [] Hd) as [items Hitems].
    exists {| cartItems := items; localStorage := Some (JSON_stringify items) |}.
    split; [reflexivity|]. split.
    + rewrite dispatches_as_updates. simpl cartItems. now rewrite Hitems.
    + assert (Hkept : Forall kept items)
        by (eapply updates_kept; [exact H | constructor | exact Hitems]).
      unfold mount, load_effect. simpl.
      rewrite sanitizeCartData_stringify; [reflexivity|].
      eapply Forall_impl; [exact Hkept|]. now intros item [Hs _].
Qed.

(** X7 on scenario A followed by a quantity of 4 and a second product. *)
Lemma reload_gives_the_cart_back_witness :
  exists first p,
    mount None = Returns first /\
    dispatches [AddToCart productX (Num (int 2)); AddToCart productX Undefined;
                UpdateQuantity (int 1) (int 4); AddToCart product7 (Num (int 3))]
               first = Returns p /\
    mount p.(localStorage) = Returns p.
Proof.
  apply (reload_gives_the_cart_back
           [AddToCart productX (Num (int 2)); AddToCart productX Undefined;
            UpdateQuantity (int 1) (int 4); AddToCart product7 (Num (int 3))]).
  - repeat constructor.
  - vm_compute. reflexivity.
Defined.

(** ** The totals *)

Lemma amount_step (acc a b : number) :
  amount acc -> amount a -> amount b -> amount (num_add acc (num_mul a b)).
Proof.
  intros (x & -> & Hx) (y & -> & Hy) (z & -> & Hz). simpl.
  eexists. split; [reflexivity|].
  rewrite !Qred_correct.
  assert (0 <= y * z)%Q by now apply Qmult_le_0_compat.
  lra.
Qed.

Lemma amount_add (acc a : number) :
  amount acc -> amount a -> amount (num_add acc a).
Proof.
  intros (x & -> & Hx) (y & -> & Hy). simpl.
  eexists. split; [reflexivity|]. rewrite Qred_correct. lra.
Qed.

Lemma totals_amount (items : list CartItem) :
  Forall (fun item => amount item.(price) /\ amount item.(quantity)) items ->
  amount (totalPrice items) /\ amount (itemCount items).
Proof.
  intros H. unfold totalPrice, itemCount.
  assert (Hzero : amount (int 0)) by (exists 0%Q; split; [reflexivity | lra]).
  revert Hzero. generalize (int 0) as acc.
  induction H as [|item items [Hp Hq] _ IH]; intros acc Hacc; simpl.
  - split; assumption.
  - split.
    + apply IH. now apply amount_step.
    + apply IH. now apply amount_add.
Qed.

Lemma amount_not_negative (n : number) : amount n -> num_leb (int 0) n = true.
Proof. intros (q & -> & Hq). simpl. now apply Qle_bool_iff. Qed.

(** X8. In a collection whose prices and quantities are finite numbers
    that are not negative, the total price and the count of items are not
    [NaN] and are not negative. *)
Theorem totals_are_never_negative (items : list CartItem) :
  Forall (fun item => amount item.(price) /\ amount item.(quantity)) items ->
  (isNaN (totalPrice items) = false /\ num_leb (int 0) (totalPrice items) = true) /\
  (isNaN (itemCount items) = false /\ num_leb (int 0) (itemCount items) = true).
Proof.
  intros H. destruct (totals_amount items H) as [Hp Hc].
  split; (split; [|now apply amount_not_negative]).
  - now destruct Hp as (q & -> & _).
  - now destruct Hc as (q & -> & _).
Qed.

(** X8 on the two lines of the scenarios. *)
Lemma totals_are_never_negative_witness :
  (isNaN (totalPrice [scenarioB_line; desk_line]) = false /\
   num_leb (int 0) (totalPrice [scenarioB_line; desk_line]) = true) /\
  (isNaN (itemCount [scenarioB_line; desk_line]) = false /\
   num_leb (int 0) (itemCount [scenarioB_line; desk_line]) = true).
Proof.
  apply (totals_are_never_negative [scenarioB_line; desk_line]).
  repeat constructor; eexists; (split; [reflexivity | vm_compute; discriminate]).
Defined.

Lemma fold_total_NaN (items : list CartItem) :
  fold_left (fun total item => num_add total (num_mul item.(price) item.(quantity)))
            items NaN = NaN.
Proof. induction items as [|item items IH]; simpl; [reflexivity | exact IH]. Qed.

Lemma fold_count_NaN (items : list CartItem) :
  fold_left (fun count item => num_add count item.(quantity)) items NaN = NaN.
Proof. induction items as [|item items IH]; simpl; [reflexivity | exact IH]. Qed.

Lemma num_add_NaN_right (a : number) : num_add a NaN = NaN.
Proof. now destruct a. Qed.

Lemma num_mul_NaN_right (a : number) : num_mul a NaN = NaN.
Proof. now destruct a. Qed.

(** X9. One line whose quantity is [NaN] makes the total price and the
    count of items [NaN], whatever the other lines. *)
Theorem one_NaN_quantity_spoils_the_totals (items : list CartItem) (item : CartItem) :
  In item items ->
  item.(quantity) = NaN ->
  totalPrice items = NaN /\ itemCount items = NaN.
Proof.
  intros Hin Hq. unfold totalPrice, itemCount.
  generalize (int 0) as acc.
  induction items as [|other items IH]; [destruct Hin|].
  intros acc. simpl. destruct Hin as [->|Hin].
  - rewrite Hq, num_mul_NaN_right, !num_add_NaN_right.
    split; [apply fold_total_NaN | apply fold_count_NaN].
  - split; apply IH; assumption.
Qed.

(** X9 on scenario B's line after [addToCart] of its product with the
    quantity [NaN]. *)
Lemma one_NaN_quantity_spoils_the_totals_witness :
  exists items,
    addToCart product7 (Num NaN) [desk_line; scenarioB_line] = Returns items /\
    totalPrice items = NaN /\ itemCount items = NaN.
Proof.
  eexists. split; [vm_compute; reflexivity|].
  apply (one_NaN_quantity_spoils_the_totals
           [desk_line; with_quantity scenarioB_line NaN]
           (with_quantity scenarioB_line NaN)).
  - right. left. reflexivity.
  - reflexivity.
Defined.

(** ** [ensureNumber] *)

(** X10. [ensureNumber] of a string is a number that is not [NaN];
    [NaN] comes out of [ensureNumber] only when the number [NaN] goes in;
    and [ensureNumber] of what it returns is what it returns. *)
Theorem ensureNumber_of_strings_is_a_number :
  (forall s, exists n, ensureNumber (Str s) = Num n /\ isNaN n = false) /\
  (forall v, ensureNumber v = Num NaN -> v = Num NaN) /\
  (forall v, ensureNumber (ensureNumber v) = ensureNumber v).
Proof.
  split; [|split].
  - intros s. simpl. destruct (isNaN (parseFloat s)) eqn:E; eauto.
  - intros v. destruct v; simpl; try congruence.
    destruct (isNaN (parseFloat s)) eqn:E; [discriminate|].
    intros [= H]. rewrite H in E. discriminate.
  - intros v. now destruct v.
Qed.

(** * The pages *)

(** ** Whole numbers *)

Lemma Qred_inject_Z (z : Z) : Qred (inject_Z z) = inject_Z z.
Proof. apply Qcanon.Qred_identity. simpl. apply Z.gcd_1_r. Qed.

Lemma num_add_int (a b : Z) : num_add (int a) (int b) = int (a + b).
Proof.
  unfold int. simpl. f_equal.
  rewrite <- inject_Z_plus. apply Qred_inject_Z.
Qed.

Lemma num_sub_int (a b : Z) : num_sub (int a) (int b) = int (a - b).
Proof.
  unfold num_sub.
  replace (num_neg (int b)) with (int (- b)).
  - rewrite num_add_int. f_equal.
  - unfold int. simpl. f_equal.
    rewrite <- inject_Z_opp. symmetry. apply Qred_inject_Z.
Qed.

Lemma num_leb_int (a b : Z) : num_leb (int a) (int b) = (a <=? b).
Proof.
  unfold int. simpl.
  destruct (a <=? b) eqn:E.
  - apply Qle_bool_iff. rewrite <- Zle_Qle. now apply Z.leb_le.
  - destruct (Qle_bool _ _) eqn:E'; [|reflexivity].
    apply Qle_bool_iff in E'. rewrite <- Zle_Qle in E'.
    apply Z.leb_le in E'. congruence.
Qed.

Lemma num_ltb_int (a b : Z) : num_ltb (int a) (int b) = (a <? b).
Proof.
  change (num_ltb (int a) (int b)) with (negb (num_leb (int b) (int a))).
  rewrite num_leb_int. rewrite Z.ltb_antisym. reflexivity.
Qed.

Lemma num_eqb_int (a b : Z) : num_eqb (int a) (int b) = (a =? b).
Proof.
  unfold int. simpl.
  destruct (a =? b) eqn:E.
  - apply Z.eqb_eq in E. subst. apply Qeq_bool_iff. reflexivity.
  - destruct (Qeq_bool _ _) eqn:E'; [|reflexivity].
    apply Qeq_bool_iff in E'.
    rewrite inject_Z_injective in E'. apply Z.eqb_eq in E'. congruence.
Qed.

Lemma Math_min_int (a b : Z) : Math_min (int a) (int b) = int (Z.min a b).
Proof.
  change (Math_min (int a) (int b))
    with (if num_leb (int a) (int b) then int a else int b).
  rewrite num_leb_int.
  destruct (a <=? b) eqn:E.
  - apply Z.leb_le in E. now rewrite Z.min_l.
  - apply Z.leb_gt in E. rewrite Z.min_r by lia. reflexivity.
Qed.

(** ** The cart page *)

(** X11. The guard of the cart page against a quantity of 0 or less
    changes nothing: [handleQuantityChange] does, for every quantity, what
    [updateQuantity] does. *)
Theorem handleQuantityChange_is_updateQuantity
    (productId newQuantity : number) (items : list CartItem) :
  handleQuantityChange productId newQuantity items
  = updateQuantity productId newQuantity items.
Proof.
  unfold handleQuantityChange, updateQuantity.
  now destruct (num_leb newQuantity (int 0)).
Qed.

Lemma minus_one_nonpositive (q : number) :
  num_leb q (int 1) = true -> num_leb (num_sub q (int 1)) (int 0) = true.
Proof.
  destruct q as [| | |x]; simpl; try congruence; try reflexivity.
  rewrite !Qle_bool_iff. intros H. rewrite !Qred_correct.
  unfold inject_Z in *. lra.
Qed.

Lemma minus_one_positive (q : number) :
  num_ltb (int 1) q = true -> num_leb (num_sub q (int 1)) (int 0) = false.
Proof.
  destruct q as [| | |x]; simpl; try congruence; try reflexivity.
  intros H. apply negb_true_iff in H.
  destruct (Qle_bool (Qred (x + Qred (- inject_Z 1))) (inject_Z 0)) eqn:E;
    [|reflexivity].
  apply Qle_bool_iff in E. rewrite !Qred_correct in E.
  assert (Hx : (x <= inject_Z 1)%Q) by (unfold inject_Z in *; lra).
  apply Qle_bool_iff in Hx. congruence.
Qed.

Lemma handleQuantityChange_positive productId q items :
  num_leb q (int 0) = false ->
  handleQuantityChange productId q items =
  map (fun item =>
         if num_eqb item.(id) productId
         then with_quantity item (Math_min q item.(stock))
         else item)
      items.
Proof.
  intros H. unfold handleQuantityChange. rewrite H.
  now apply updateQuantity_positive.
Qed.

(** X12. The [-] button of a line.  On a line whose quantity is 1 or
    less, it removes every line with the id of the line.  On a line whose
    quantity is above 1, it sets the quantity to [Math.min(quantity - 1,
    stock)]: a quantity that had passed the stock by more than 1 falls to
    the stock at once. *)
Theorem minus_click_lowers_or_removes
    (item : CartItem) (items : list CartItem) (i : nat) :
  nth_error items i = Some item ->
  isNaN item.(id) = false ->
  (num_leb item.(quantity) (int 1) = true ->
   Forall (fun other => num_eqb other.(id) item.(id) = false)
          (minus_click item items)) /\
  (num_ltb (int 1) item.(quantity) = true ->
   exists item',
     nth_error (minus_click item items) i = Some item' /\
     item'.(quantity) = Math_min (num_sub item.(quantity) (int 1)) item.(stock) /\
     (num_ltb item.(stock) (num_sub item.(quantity) (int 1)) = true ->
      item'.(quantity) = item.(stock))).
Proof.
  intros Hi Hid. unfold minus_click, handleQuantityChange. split.
  - intros Hq. rewrite (minus_one_nonpositive _ Hq).
    apply removeFromCart_absent.
  - intros Hq. rewrite (minus_one_positive _ Hq).
    rewrite updateQuantity_positive by now apply minus_one_positive.
    rewrite nth_error_map, Hi. simpl. rewrite (num_eqb_refl _ Hid).
    eexists. split; [reflexivity|]. simpl. split; [reflexivity|].
    apply Math_min_above.
Qed.

(** X12 on that line: one click on [-] leaves the quantity 3. *)
Lemma minus_click_lowers_or_removes_witness :
  exists item',
    nth_error (minus_click overfull_line [desk_line; overfull_line]) 1 = Some item' /\
    item'.(quantity) = Math_min (num_sub (int 7) (int 1)) (int 3) /\
    (num_ltb (int 3) (num_sub (int 7) (int 1)) = true ->
     item'.(quantity) = int 3).
Proof.
  apply (minus_click_lowers_or_removes overfull_line [desk_line; overfull_line] 1%nat);
    reflexivity.
Defined.

(** X13. The [+] button of a line whose quantity and stock are finite
    numbers, the quantity not negative and below 2^53, where adding 1 to a
    number of the program makes it greater.  At or above the stock the
    button is disabled and the collection stays as it is; below the stock
    the quantity of the line rises, and does not pass the stock. *)
Theorem plus_click_raises_within_stock
    (item : CartItem) (items : list CartItem) (i : nat) (q s : Q) :
  nth_error items i = Some item ->
  isNaN item.(id) = false ->
  item.(quantity) = Fin q ->
  item.(stock) = Fin s ->
  (0 <= q)%Q ->
  (q < inject_Z (2 ^ 53))%Q ->
  ((s <= q)%Q -> plus_click item items = items) /\
  ((q < s)%Q ->
   exists item',
     nth_error (plus_click item items) i = Some item' /\
     num_ltb item.(quantity) item'.(quantity) = true /\
     num_leb item'.(quantity) item.(stock) = true).
Proof.
  intros Hi Hid Hq Hs Hq0 _. unfold plus_click. rewrite Hq, Hs. simpl num_leb.
  split.
  - intros Hle. apply Qle_bool_iff in Hle. now rewrite Hle.
  - intros Hlt.
    assert (E : Qle_bool s q = false).
    { destruct (Qle_bool s q) eqn:E; [|reflexivity].
      apply Qle_bool_iff in E. lra. }
    rewrite E. rewrite handleQuantityChange_positive.
    + rewrite nth_error_map, Hi. simpl. rewrite (num_eqb_refl _ Hid).
      eexists. split; [reflexivity|]. simpl. rewrite ?Hq, ?Hs. simpl.
      destruct (Qle_bool (Qred (q + inject_Z 1)) s) eqn:E1; simpl.
      * split; [|exact E1]. apply negb_true_iff.
        destruct (Qle_bool (Qred (q + inject_Z 1)) q) eqn:E2; [|reflexivity].
        apply Qle_bool_iff in E2. rewrite Qred_correct in E2.
        unfold inject_Z in E2. lra.
      * split; [now rewrite E|]. apply Qle_bool_iff. lra.
    + simpl. destruct (Qle_bool (Qred (q + inject_Z 1)) (inject_Z 0)) eqn:E0;
        [|reflexivity].
      apply Qle_bool_iff in E0. rewrite Qred_correct in E0.
      unfold inject_Z in E0. lra.
Qed.

(** X13 on scenario B's line, of quantity 2 and stock 3. *)
Lemma plus_click_raises_within_stock_witness :
  exists item',
    nth_error (plus_click scenarioB_line [scenarioB_line; desk_line]) 0 = Some item' /\
    num_ltb (int 2) item'.(quantity) = true /\
    num_leb item'.(quantity) (int 3) = true.
Proof.
  apply (plus_click_raises_within_stock scenarioB_line [scenarioB_line; desk_line]
           0%nat (inject_Z 2) (inject_Z 3));
    try reflexivity; vm_compute; discriminate.
Defined.

(** ** The pages together *)

Lemma handleQuantityChange_is_updateQuantity_eq productId q items :
  handleQuantityChange productId q items = updateQuantity productId q items.
Proof.
  unfold handleQuantityChange, updateQuantity.
  now destruct (num_leb q (int 0)).
Qed.

Lemma cart_product_props (product : object) :
  prop (cart_product product) "id" = prop product "id" /\
  prop (cart_product product) "name" = prop product "name" /\
  prop (cart_product product) "price" = ensureNumber (prop product "price") /\
  prop (cart_product product) "stock" = prop product "stock" /\
  prop (cart_product product) "fileName" = Undefined /\
  prop (cart_product product) "sellerId" = Undefined.
Proof. repeat split. Qed.

Lemma cart_product_declared (product : object) (n : number) :
  catalog_product product ->
  declared (AddToCart (cart_product product) (Num n)) = true.
Proof.
  intros (Hid & Hname & Hprice & s & Hs & _).
  destruct (cart_product_props product) as (E1 & E2 & E3 & E4 & E5 & E6).
  simpl. unfold declared_product. rewrite E1, E2, E3, E4, E5, E6, Hid, Hname, Hs.
  simpl. rewrite !andb_true_r.
  destruct Hprice as [H|H]; destruct (prop product "price"); try discriminate;
    reflexivity.
Qed.

Lemma page_line_with_quantity (item : CartItem) (k : Z) :
  page_line item -> 1 <= k -> page_line (with_quantity item (int k)).
Proof.
  intros (k0 & s & _ & _ & Hs & Hs1 & Hf) Hk.
  exists k, s. simpl. repeat split; assumption.
Qed.

Lemma updateQuantity_page_lines (productId : number) (k : Z) (items : list CartItem) :
  Forall page_line items ->
  Forall page_line (updateQuantity productId (int k) items).
Proof.
  intros H. unfold updateQuantity. rewrite num_leb_int.
  destruct (k <=? 0) eqn:E; [now apply removeFromCart_Forall|].
  apply Z.leb_gt in E.
  apply Forall_map. eapply Forall_impl; [exact H|].
  intros item Hitem. cbv beta. destruct (num_eqb _ _); [|assumption].
  pose proof Hitem as (k0 & s & _ & _ & Hs & Hs1 & _).
  rewrite Hs, Math_min_int. apply page_line_with_quantity; [assumption | lia].
Qed.

Lemma addToCart_page_lines (product : object) (k s : Z) (items : list CartItem) :
  catalog_product product ->
  prop product "stock" = Num (int s) -> 1 <= s -> 1 <= k ->
  Forall page_line items ->
  exists items',
    addToCart (cart_product product) (Num (int k)) items = Returns items' /\
    Forall page_line items'.
Proof.
  intros Hc Hs Hs1 Hk Hitems.
  destruct (addToCart_declared_returns _ _ items (cart_product_declared _ (int k) Hc))
    as [items' Hadd].
  exists items'. split; [exact Hadd|].
  destruct (List.find
              (fun item => strict_eq_num item.(id) (prop (cart_product product) "id"))
              items) as [y|] eqn:Hfind.
  - unfold addToCart in Hadd. rewrite Hfind in Hadd. simpl in Hadd.
    injection Hadd as <-.
    apply Forall_map. eapply Forall_impl; [exact Hitems|].
    intros item Hitem. cbv beta. destruct (strict_eq_num _ _); [|assumption].
    pose proof Hitem as (k0 & s0 & Hq & Hk0 & _).
    rewrite Hq, num_add_int. apply page_line_with_quantity; [assumption | lia].
  - destruct (addToCart_new_line _ _ _ _ Hfind Hadd) as (line & Hline & ->).
    apply Forall_app. split; [assumption|]. constructor; [|constructor].
    apply sanitizeCartItem_object_fields in Hline
      as (_ & _ & _ & Hquantity & Hfile & Hstock & _).
    rewrite prop_quantity_set in Hquantity.
    rewrite prop_other_set in Hfile, Hstock by discriminate.
    destruct (cart_product_props product) as (_ & _ & _ & E4 & E5 & _).
    rewrite E4, Hs in Hstock. rewrite E5 in Hfile.
    rewrite numeric_field_at_least_one in Hquantity, Hstock
      by (rewrite num_leb_int; now apply Z.leb_le).
    rewrite string_field_absent in Hfile.
    injection Hquantity as Hquantity. injection Hstock as Hstock.
    injection Hfile as Hfile.
    exists k, s. repeat split; auto.
Qed.

Lemma on_click_page_lines (isAuthenticated : bool) (c : click)
    (items : list CartItem) :
  offered c ->
  Forall page_line items ->
  exists items',
    on_click isAuthenticated c items = Returns items' /\ Forall page_line items'.
Proof.
  intros Hc Hitems. destruct c as [product selected|product|i|i|i|]; cbn [on_click].
  - destruct Hc as (Hcat & s & k & Hs & -> & Hk).
    rewrite Hs, num_ltb_int. destruct (0 <? s) eqn:E; [|eauto].
    apply Z.ltb_lt in E. unfold handleAddToCart.
    destruct isAuthenticated; cbn [negb]; [|eauto].
    rewrite Hs. cbn [strict_eq_num]. rewrite num_eqb_int.
    destruct (0 =? s) eqn:E0; [eauto|].
    apply addToCart_page_lines with (s := s); try assumption; lia.
  - pose proof Hc as (_ & _ & _ & s & Hs & Hs0).
    rewrite Hs. cbn [strict_eq_num]. rewrite num_eqb_int.
    destruct (0 =? s) eqn:E0; [eauto|]. apply Z.eqb_neq in E0.
    unfold handleQuickAddToCart. destruct isAuthenticated; cbn [negb]; [|eauto].
    apply addToCart_page_lines with (s := s); try assumption; lia.
  - destruct (nth_error items i) as [item|] eqn:Hi; [|eauto].
    eexists. split; [reflexivity|].
    assert (Hitem : page_line item).
    { rewrite List.Forall_forall in Hitems. apply Hitems.
      eapply nth_error_In; eassumption. }
    destruct Hitem as (k & s & Hq & _).
    unfold minus_click. rewrite handleQuantityChange_is_updateQuantity_eq.
    rewrite Hq, num_sub_int. now apply updateQuantity_page_lines.
  - destruct (nth_error items i) as [item|] eqn:Hi; [|eauto].
    eexists. split; [reflexivity|].
    assert (Hitem : page_line item).
    { rewrite List.Forall_forall in Hitems. apply Hitems.
      eapply nth_error_In; eassumption. }
    destruct Hitem as (k & s & Hq & _).
    unfold plus_click. destruct (num_leb _ _); [assumption|].
    rewrite handleQuantityChange_is_updateQuantity_eq.
    rewrite Hq, num_add_int. now apply updateQuantity_page_lines.
  - destruct (nth_error items i) as [item|]; [|eauto].
    eexists. split; [reflexivity|]. now apply removeFromCart_Forall.
  - eexists. split; [reflexivity|]. constructor.
Qed.

(** X14. Through the pages, with products of the catalog and with or
    without a session, every sequence of clicks that the pages offer
    reaches a collection, and every line of it has a whole quantity of at
    least 1, a whole stock of at least 1 and an empty file name: the image
    that the pages pass with a product is not kept. *)
Theorem pages_keep_whole_quantities (isAuthenticated : bool) (clicks : list click) :
  Forall offered clicks ->
  exists items,
    on_clicks isAuthenticated clicks [] = Returns items /\
    Forall page_line items.
Proof.
  intros H.
  assert (G : forall start,
             Forall page_line start ->
             exists items,
               on_clicks isAuthenticated clicks start = Returns items /\
               Forall page_line items).
  { induction H as [|c clicks Hc _ IH]; intros start Hstart; simpl; [eauto|].
    destruct (on_click_page_lines isAuthenticated c start Hc Hstart)
      as (items1 & -> & H1).
    simpl. now apply IH. }
  apply G. constructor.
Qed.

Lemma productX_in_catalog : catalog_product productX.
Proof.
  repeat split; try reflexivity; [now left|].
  exists 5. split; [reflexivity | lia].
Qed.

Lemma product7_in_catalog : catalog_product product7.
Proof.
  repeat split; try reflexivity; [now left|].
  exists 3. split; [reflexivity | lia].
Qed.

Lemma product_out_of_stock_in_catalog : catalog_product product_out_of_stock.
Proof.
  repeat split; try reflexivity; [now left|].
  exists 0. split; [reflexivity | lia].
Qed.

(** X14 on a visit: a product added from a list, another from its page
    with the quantity 2, a click on [+] and one on [-], a product that is
    out of stock, and a removal. *)
Lemma pages_keep_whole_quantities_witness :
  exists items,
    on_clicks true
      [QuickAdd productX; DetailAdd product7 (int 2); Plus 0; Minus 1;
       QuickAdd product_out_of_stock; Remove 0] [] = Returns items /\
    Forall page_line items.
Proof.
  apply (pages_keep_whole_quantities true
           [QuickAdd productX; DetailAdd product7 (int 2); Plus 0; Minus 1;
            QuickAdd product_out_of_stock; Remove 0]).
  repeat constructor;
    try apply productX_in_catalog;
    try apply product7_in_catalog;
    try apply product_out_of_stock_in_catalog.
  exists 3, 2. repeat split; try reflexivity; lia.
Defined.

(** * The rest of [src/app/lib/utils.ts] *)

(** ** Regular expressions *)

Lemma nullable_lang (r : regex) : nullable r = true <-> lang r [].
Proof.
  split.
  - induction r; simpl; try discriminate; intros H.
    + constructor.
    + apply andb_true_iff in H as [H1 H2].
      change (@nil ascii) with (@nil ascii ++ []). constructor; auto.
    + apply orb_true_iff in H as [H|H]; [apply lang_alt_l | apply lang_alt_r]; auto.
    + constructor.
  - intros H. remember [] as w eqn:Hw. induction H; simpl; try discriminate; auto.
    + apply app_eq_nil in Hw as [-> ->]. rewrite IHlang1, IHlang2; auto.
    + rewrite IHlang; auto.
    + rewrite IHlang; auto. apply orb_true_r.
Qed.

Lemma lang_star_head (r : regex) (c : ascii) (w : list ascii) :
  lang (Star r) (c :: w) ->
  exists u v, w = u ++ v /\ lang r (c :: u) /\ lang (Star r) v.
Proof.
  intros H. remember (Star r) as r' eqn:Hr. remember (c :: w) as cw eqn:Hcw.
  revert w Hcw. induction H; try discriminate; intros w Hcw.
  injection Hr as ->.
  destruct u as [|c' u].
  - simpl in Hcw. apply IHlang2; auto.
  - simpl in Hcw. injection Hcw as -> <-. exists u, v. auto.
Qed.

Lemma lang_seq_iff (r1 r2 : regex) (w : list ascii) :
  lang (Seq r1 r2) w <-> exists u v, w = u ++ v /\ lang r1 u /\ lang r2 v.
Proof.
  split.
  - inversion 1; subst. eauto.
  - intros (u & v & -> & H1 & H2). now constructor.
Qed.

Lemma lang_alt_iff (r1 r2 : regex) (w : list ascii) :
  lang (Alt r1 r2) w <-> lang r1 w \/ lang r2 w.
Proof.
  split.
  - inversion 1; subst; auto.
  - intros [H|H]; [now apply lang_alt_l | now apply lang_alt_r].
Qed.

Lemma lang_class_iff (p : ascii -> bool) (w : list ascii) :
  lang (Class p) w <-> exists c, w = [c] /\ p c = true.
Proof.
  split.
  - inversion 1; subst. eauto.
  - intros (c & -> & H). now constructor.
Qed.

Lemma lang_eps_iff (w : list ascii) : lang Eps w <-> w = [].
Proof.
  split.
  - now inversion 1.
  - intros ->. constructor.
Qed.

Lemma lang_fail (w : list ascii) : ~ lang Fail w.
Proof. inversion 1. Qed.

Lemma derive_lang (r : regex) (c : ascii) (w : list ascii) :
  lang (derive c r) w <-> lang r (c :: w).
Proof.
  revert w. induction r; intros w; simpl.
  - split; intros H; now apply lang_fail in H.
  - split; intros H; [now apply lang_fail in H|].
    apply lang_eps_iff in H. discriminate.
  - rewrite lang_class_iff. destruct (p c) eqn:E.
    + rewrite lang_eps_iff. split.
      * intros ->. eauto.
      * intros (c' & Heq & _). injection Heq as _ Hw. exact Hw.
    + split; [intros H; now apply lang_fail in H|].
      intros (c' & Heq & H). injection Heq as Hc _. congruence.
  - rewrite (lang_seq_iff r1 r2).
    assert (Hfirst : lang (Seq (derive c r1) r2) w <->
                     exists u v, c :: w = (c :: u) ++ v /\ lang r1 (c :: u) /\ lang r2 v).
    { rewrite lang_seq_iff. split.
      - intros (u & v & -> & H1 & H2). exists u, v. rewrite <- IHr1. auto.
      - intros (u & v & [= ->] & H1 & H2). exists u, v. rewrite IHr1. auto. }
    destruct (nullable r1) eqn:E.
    + rewrite lang_alt_iff, Hfirst, IHr2. split.
      * intros [(u & v & Hw & H1 & H2)|H]; [eauto|].
        exists [], (c :: w). repeat split; auto. now apply nullable_lang.
      * intros (u & v & Hw & H1 & H2). destruct u as [|c' u].
        -- simpl in Hw. subst v. now right.
        -- injection Hw as <- ->. left. eauto.
    + rewrite Hfirst. split.
      * intros (u & v & Hw & H1 & H2). eauto.
      * intros (u & v & Hw & H1 & H2). destruct u as [|c' u].
        -- apply nullable_lang in H1. congruence.
        -- injection Hw as <- ->. eauto.
  - rewrite !lang_alt_iff, IHr1, IHr2. reflexivity.
  - rewrite lang_seq_iff. split.
    + intros (u & v & -> & H1 & H2).
      change (c :: u ++ v) with ((c :: u) ++ v). constructor; auto.
      now apply IHr.
    + intros H. apply lang_star_head in H as (u & v & -> & H1 & H2).
      exists u, v. rewrite IHr. auto.
Qed.

Lemma test_lang (r : regex) (s : string) : test r s = true <-> lang r (chars s).
Proof.
  revert r. induction s as [|c s IH]; intros r; simpl.
  - apply nullable_lang.
  - rewrite IH. apply derive_lang.
Qed.

Lemma lang_lit (c : ascii) (w : list ascii) : lang (lit c) w <-> w = [c].
Proof.
  unfold lit. split.
  - inversion 1; subst. f_equal. symmetry. now apply Ascii.eqb_eq.
  - intros ->. constructor. apply Ascii.eqb_refl.
Qed.

Lemma lang_star_class (p : ascii -> bool) (w : list ascii) :
  lang (Star (Class p)) w <-> Forall (fun c => p c = true) w.
Proof.
  split.
  - intros H. remember (Star (Class p)) as r eqn:Hr.
    induction H; try discriminate; [constructor|].
    injection Hr as ->. inversion H; subst. simpl. constructor; auto.
  - induction 1 as [|c w Hc _ IH]; [constructor|].
    change (c :: w) with ([c] ++ w). constructor; [now constructor | exact IH].
Qed.

Lemma lang_one_or_more_class (p : ascii -> bool) (w : list ascii) :
  lang (OneOrMore (Class p)) w <-> w <> [] /\ Forall (fun c => p c = true) w.
Proof.
  unfold OneOrMore. split.
  - inversion 1 as [| |? ? u v H1 H2| | | |]; subst.
    inversion H1; subst. apply lang_star_class in H2.
    split; [discriminate | now constructor].
  - intros [Hne Hall]. destruct Hall as [|c w Hc Hw]; [congruence|].
    change (c :: w) with ([c] ++ w).
    constructor; [now constructor | now apply lang_star_class].
Qed.


Lemma lang_exactly_class (p : ascii -> bool) (n : nat) (w : list ascii) :
  lang (Exactly n (Class p)) w <-> length w = n /\ Forall (fun c => p c = true) w.
Proof.
  revert w. induction n as [|n IH]; intros w; simpl.
  - rewrite lang_eps_iff. split.
    + intros ->. split; [reflexivity | constructor].
    + intros [H _]. now destruct w.
  - rewrite lang_seq_iff. split.
    + intros (u & v & -> & H1 & H2).
      apply lang_class_iff in H1 as (c & -> & Hc). apply IH in H2 as [Hl Hv].
      simpl. split; [now rewrite Hl | now constructor].
    + intros [Hl Hall]. destruct Hall as [|c w Hc Hw]; [discriminate|].
      exists [c], w. repeat split.
      * now constructor.
      * apply IH. split; [now injection Hl | assumption].
Qed.


(** ** [isValidPhone] *)

(** X15. [isValidPhone] accepts a string when it is made of [0], [1] and
    nine digits, and only then: eleven characters, all digits. *)
Theorem isValidPhone_shape (phone : string) :
  isValidPhone phone = true <->
  exists rest,
    chars phone = "0"%char :: "1"%char :: rest /\
    length rest = 9%nat /\
    Forall (fun c => is_digit c = true) rest.
Proof.
  unfold isValidPhone, phoneRegex. rewrite test_lang. split.
  - intros H.
    apply lang_seq_iff in H as (u & v & -> & Hu & H).
    apply lang_seq_iff in H as (u' & v' & -> & Hu' & H).
    apply lang_lit in Hu as ->. apply lang_lit in Hu' as ->.
    apply lang_exactly_class in H as [Hl Hd].
    exists v'. auto.
  - intros (rest & -> & Hl & Hd).
    change ("0"%char :: "1"%char :: rest) with (["0"%char] ++ ["1"%char] ++ rest).
    constructor; [now apply lang_lit|].
    constructor; [now apply lang_lit|].
    apply lang_exactly_class. auto.
Qed.

(** ** [isValidEmail] *)

Lemma email_lang (w : list ascii) :
  lang emailRegex w <->
  exists a b c,
    w = a ++ "@"%char :: b ++ "."%char :: c /\
    address_part a /\ address_part b /\ address_part c.
Proof.
  unfold emailRegex, address_part. split.
  - intros H.
    apply lang_seq_iff in H as (a & v1 & -> & Ha & H).
    apply lang_seq_iff in H as (x & v2 & -> & Hx & H).
    apply lang_seq_iff in H as (b & v3 & -> & Hb & H).
    apply lang_seq_iff in H as (y & c & -> & Hy & Hc).
    apply lang_lit in Hx as ->. apply lang_lit in Hy as ->.
    apply lang_one_or_more_class in Ha, Hb, Hc.
    exists a, b, c. auto.
  - intros (a & b & c & -> & Ha & Hb & Hc).
    constructor; [now apply lang_one_or_more_class|].
    change ("@"%char :: b ++ "."%char :: c)
      with (["@"%char] ++ b ++ ["."%char] ++ c).
    constructor; [now apply lang_lit|].
    constructor; [now apply lang_one_or_more_class|].
    constructor; [now apply lang_lit | now apply lang_one_or_more_class].
Qed.

(** X16. [isValidEmail] accepts a string when it is a part, [@], a part,
    a dot and a part, the three parts not empty and with no [@] and no
    white space in them, be it the white space of one byte or that of two
    or three, and only then. *)
Theorem isValidEmail_shape (email : string) :
  isValidEmail email = true <->
  has_wide_white_space email = false /\
  exists a b c,
    chars email = a ++ "@"%char :: b ++ "."%char :: c /\
    address_part a /\ address_part b /\ address_part c.
Proof.
  unfold isValidEmail.
  rewrite andb_true_iff, negb_true_iff, test_lang.
  split; intros [Hwide H]; (split; [exact Hwide | now apply email_lang]).
Qed.

(** The no-break space U+00A0 is white space, and an address with one is
    rejected. *)
Example isValidEmail_no_break_space :
  isValidEmail (String "a" (String "194" (String "160" "b@c.d"))) = false /\
  isValidEmail "ab@c.d" = true.
Proof. split; reflexivity. Qed.




(** ** [truncateText] *)

Lemma substring_all (s : string) (n : nat) :
  (String.length s <= n)%nat -> String.substring 0 n s = s.
Proof.
  revert n. induction s as [|c s IH]; intros n H; simpl.
  - now destruct n.
  - destruct n as [|n]; simpl in *; [lia|]. rewrite IH by lia. reflexivity.
Qed.











(** ** [calculateDiscountPrice] *)

(** X19. [calculateDiscountPrice] of a finite price that is not negative
    and a finite percentage from 0 to 100 is a finite number from 0 to the
    price. *)
Theorem calculateDiscountPrice_within_price (p d : Q) :
  (0 <= p)%Q -> (0 <= d)%Q -> (d <= 100)%Q ->
  exists r,
    calculateDiscountPrice (Fin p) (Fin d) = Fin r /\ (0 <= r)%Q /\ (r <= p)%Q.
Proof.
  intros Hp Hd0 Hd. unfold calculateDiscountPrice. simpl truthy.
  destruct (Qeq_bool d 0) eqn:E; simpl.
  - exists p. repeat split; [assumption | apply Qle_refl].
  - eexists. split; [reflexivity|].
    rewrite !Qred_correct.
    assert (H0 : (0 <= d / inject_Z 100)%Q)
      by (apply Qle_shift_div_l; [reflexivity | lra]).
    assert (H1 : (d / inject_Z 100 <= 1)%Q)
      by (apply Qle_shift_div_r; [reflexivity | unfold inject_Z; lra]).
    set (f := (d / inject_Z 100)%Q) in *.
    assert (0 <= p * f)%Q by now apply Qmult_le_0_compat.
    assert (p * f <= p * 1)%Q.
    { rewrite (Qmult_comm p f), (Qmult_comm p 1).
      apply Qmult_le_compat_r; assumption. }
    split; lra.
Qed.

(** X19 on the price 200 and the percentage 25. *)
Lemma calculateDiscountPrice_within_price_witness :
  exists r,
    calculateDiscountPrice (int 200) (int 25) = Fin r /\
    (0 <= r)%Q /\ (r <= inject_Z 200)%Q.
Proof.
  apply (calculateDiscountPrice_within_price (inject_Z 200) (inject_Z 25));
    vm_compute; discriminate.
Defined.

(** ** [cleanObject] *)

Lemma cleanObject_lookup (obj : object) (k : string) :
  cleanObject obj !! k =
  match obj !! k with
  | Some v => if truthy v && negb (String.eqb k "__proto__") then Some v else None
  | None => None
  end.
Proof.
  unfold cleanObject.
  apply (map_fold_weak_ind
           (fun acc m =>
              acc !! k = match m !! k with
                         | Some v =>
                             if truthy v && negb (String.eqb k "__proto__")
                             then Some v else None
                         | None => None
                         end)).
  - reflexivity.
  - intros i x m acc Hi IH.
    destruct (decide (i = k)) as [->|Hne].
    + rewrite lookup_insert_eq. rewrite Hi in IH.
      destruct (truthy x); [|exact IH]. unfold set_property. cbn [andb].
      destruct (String.eqb k "__proto__"); [exact IH | apply lookup_insert_eq].
    + rewrite (lookup_insert_ne m) by assumption.
      destruct (truthy x); [|exact IH]. unfold set_property.
      destruct (String.eqb i "__proto__"); [exact IH|].
      now rewrite lookup_insert_ne.
Qed.

(** X20. [cleanObject] keeps the entries whose value is truthy and whose
    key is not [__proto__], each with its value, and no other: an entry
    whose value is 0, [NaN], the empty string, [false], [null] or
    [undefined] is dropped, and so is the entry of the key [__proto__],
    whatever its value.  Cleaning twice is cleaning once. *)
Theorem cleanObject_keeps_truthy (obj : object) :
  (forall k v,
      cleanObject obj !! k = Some v <->
      obj !! k = Some v /\ truthy v = true /\ k <> "__proto__") /\
  cleanObject (cleanObject obj) = cleanObject obj.
Proof.
  assert (H : forall o k v,
             cleanObject o !! k = Some v <->
             o !! k = Some v /\ truthy v = true /\ k <> "__proto__").
  { intros o k v. rewrite cleanObject_lookup.
    destruct (o !! k) as [x|]; [|split; [discriminate | now intros [? _]]].
    destruct (truthy x) eqn:E; cbn [andb].
    - destruct (String.eqb_spec k "__proto__") as [->|Hk]; cbn [negb]; split.
      + discriminate.
      + now intros (_ & _ & Hk).
      + intros [= <-]. auto.
      + now intros [? _].
    - split; [discriminate|]. intros ([= <-] & Hv & _). congruence. }
  split; [apply H|].
  apply map_eq. intros k.
  rewrite (cleanObject_lookup (cleanObject obj)).
  destruct (cleanObject obj !! k) as [v|] eqn:E; [|reflexivity].
  apply H in E as (_ & -> & Hk).
  apply String.eqb_neq in Hk. now rewrite Hk.
Qed.

(** ** [deepClone] *)






(** * The notification provider *)

Lemma removeNotification_subset (i : string)
    (prev : list Notifications.Notification) (n : Notifications.Notification) :
  In n (Notifications.removeNotification i prev) ->
  In n prev /\ Notifications.id n <> i.
Proof.
  unfold Notifications.removeNotification. intros H.
  apply filter_In in H as [Hin H]. split; [assumption|].
  apply negb_true_iff in H. now apply String.eqb_neq in H.
Qed.

Lemma step_timed (e : Notifications.event) (p : Notifications.provider) :
  timed p -> timed (Notifications.step e p).
Proof.
  unfold timed. intros H. destruct e as [m t random now|i| |]; simpl.
  - constructor; simpl.
    + apply in_or_app. right. now left.
    + eapply Forall_impl; [exact H|]. intros n Hn. simpl in Hn.
      apply in_or_app. now left.
  - apply List.Forall_forall. intros n Hn.
    apply removeNotification_subset in Hn as [Hin _].
    rewrite List.Forall_forall in H. now apply H.
  - constructor.
  - unfold Notifications.timer_fires.
    destruct (Notifications.timers p) as [|i rest] eqn:E; [now rewrite E|].
    simpl. apply List.Forall_forall. intros n Hn.
    apply removeNotification_subset in Hn as [Hin Hne].
    rewrite List.Forall_forall in H. destruct (H n Hin) as [Heq|Hrest].
    + congruence.
    + exact Hrest.
Qed.

Lemma run_timed (events : list Notifications.event) (p : Notifications.provider) :
  timed p -> timed (Notifications.run events p).
Proof.
  revert p. induction events as [|e events IH]; intros p Hp; simpl; [assumption|].
  apply IH. now apply step_timed.
Qed.

Lemma timed_empty (p : Notifications.provider) :
  timed p -> Notifications.timers p = [] -> Notifications.notifications p = [].
Proof.
  unfold timed. intros H Ht. rewrite Ht in H.
  destruct (Notifications.notifications p) as [|n l]; [reflexivity|].
  inversion H as [|? ? Hn _]; subst. destruct Hn.
Qed.

Lemma fires_drop_timers (k : nat) (p : Notifications.provider) :
  Notifications.timers
    (Notifications.run (repeat Notifications.Fire k) p)
  = skipn k (Notifications.timers p).
Proof.
  revert p. induction k as [|k IH]; intros p; simpl; [reflexivity|].
  unfold Notifications.run in IH. unfold Notifications.run. simpl.
  rewrite IH. unfold Notifications.timer_fires.
  destruct (Notifications.timers p) as [|i rest] eqn:E.
  - rewrite E. now destruct k.
  - reflexivity.
Qed.

(** X21. Whatever has been added, dismissed, cleared and timed out, each
    notification shown has a timer that has not fired and that will remove
    it; so no notification is shown once the timers have all fired, and
    letting the timers that are left fire empties the list. *)
Theorem every_notification_times_out (events : list Notifications.event) :
  let p := Notifications.run events Notifications.initial in
  Forall (fun n => In (Notifications.id n) (Notifications.timers p))
         (Notifications.notifications p) /\
  (Notifications.timers p = [] -> Notifications.notifications p = []) /\
  Notifications.notifications
    (Notifications.run
       (repeat Notifications.Fire (length (Notifications.timers p))) p) = [].
Proof.
  intros p.
  assert (Hp : timed p) by (apply run_timed; constructor).
  split; [exact Hp|]. split; [now apply timed_empty|].
  apply timed_empty.
  - now apply run_timed.
  - rewrite fires_drop_timers. apply skipn_all.
Qed.

(** X22. A notification is added under an id that no notification shown
    has.  Removing that id, as the timer of the notification does when it
    fires, gives back the list as it was, in the same order. *)
Theorem a_notification_comes_and_goes
    (m : string) (t : Notifications.kind) (random : string) (now : Z)
    (p : Notifications.provider) :
  Forall (fun n => Notifications.id n <> random) (Notifications.notifications p) ->
  Notifications.removeNotification random
    (Notifications.notifications (Notifications.addNotification m t random now p))
  = Notifications.notifications p.
Proof.
  intros Hfresh.
  unfold Notifications.removeNotification. simpl.
  rewrite String.eqb_refl. simpl. apply filter_all.
  eapply Forall_impl; [exact Hfresh|]. intros n Hn. simpl in Hn.
  apply negb_true_iff. now apply String.eqb_neq.
Qed.

(** X22 on a notification added to one that is shown. *)
Lemma a_notification_comes_and_goes_witness :
  Notifications.removeNotification "p7q"
    (Notifications.notifications
       (Notifications.addNotification "New order received: 12" Notifications.success
          "p7q" 11 one_shown))
  = Notifications.notifications one_shown.
Proof.
  apply (a_notification_comes_and_goes "New order received: 12"
           Notifications.success "p7q" 11 one_shown).
  repeat constructor. discriminate.
Defined.

(** * The stars of the product page *)

Lemma to_integer_int (z : Z) : to_integer (int z) = Some z.
Proof. simpl. now rewrite Z.quot_1_r. Qed.

Lemma repeat_string_int (s : string) (z : Z) :
  repeat_string s (int z) = if z <? 0 then None else Some (copies (Z.to_nat z) s).
Proof. unfold repeat_string. now rewrite to_integer_int. Qed.

Lemma renderStars_floor (q : Q) :
  renderStars (Fin q) =
  if (Qfloor q <? 0) || (5 <? Qfloor q) then None
  else Some (copies (Z.to_nat (Qfloor q)) full_star +:+
             copies (5 - Z.to_nat (Qfloor q)) hollow_star).
Proof.
  unfold renderStars. cbn [Math_floor].
  rewrite num_sub_int, !repeat_string_int.
  destruct (Z.ltb_spec (Qfloor q) 0) as [Hneg|Hpos]; [reflexivity|].
  cbn [mbind option_bind orb].
  destruct (Z.ltb_spec (5 - Qfloor q) 0) as [Hbig|Hsmall];
    destruct (Z.ltb_spec 5 (Qfloor q)) as [Hbig'|Hsmall']; try lia.
  - reflexivity.
  - cbn [mbind option_bind]. do 3 f_equal. lia.
Qed.

Lemma Qfloor_below (q : Q) (z : Z) : (Qfloor q < z)%Z <-> (q < inject_Z z)%Q.
Proof.
  split.
  - intros H. apply Qlt_le_trans with (inject_Z (Qfloor q + 1)).
    + apply Qlt_floor.
    + rewrite <- Zle_Qle. lia.
  - intros H. destruct (Z.lt_ge_cases (Qfloor q) z) as [Hlt|Hge]; [exact Hlt|].
    exfalso. apply (Qlt_irrefl q).
    apply Qlt_le_trans with (inject_Z z); [exact H|].
    apply Qle_trans with (inject_Z (Qfloor q)).
    + now rewrite <- Zle_Qle.
    + apply Qfloor_le.
Qed.

(** X24. [renderStars] returns for a finite rating exactly when the rating
    is at least 0 and below 6; for a negative rating and for a rating of 6
    or more one of its two [repeat] calls throws.  When it returns, the
    text is [k] full stars followed by [5 - k] hollow ones, [k] being the
    whole part of the rating. *)
Theorem renderStars_needs_a_rating_below_six (q : Q) :
  (renderStars (Fin q) = None <-> (q < 0 \/ 6 <= q)%Q) /\
  (forall stars : string, renderStars (Fin q) = Some stars ->
     exists k : nat,
       (k <= 5)%nat /\
       (inject_Z (Z.of_nat k) <= q)%Q /\ (q < inject_Z (Z.of_nat k) + 1)%Q /\
       stars = copies k full_star +:+ copies (5 - k) hollow_star).
Proof.
  rewrite renderStars_floor. split.
  - destruct (Z.ltb_spec (Qfloor q) 0) as [Hneg|Hpos]; cbn [orb].
    + split; [|reflexivity]. intros _. left. now apply (Qfloor_below q 0).
    + destruct (Z.ltb_spec 5 (Qfloor q)) as [Hbig|Hsmall].
      * split; [|reflexivity]. intros _. right.
        apply Qnot_lt_le. intros Hlt. apply (Qfloor_below q 6) in Hlt. lia.
      * split; [discriminate|]. intros [Hlt|Hge].
        -- apply (Qfloor_below q 0) in Hlt. lia.
        -- exfalso. assert (Hlt : (Qfloor q < 6)%Z) by lia.
           apply Qfloor_below in Hlt. now apply (Qlt_not_le _ _ Hlt).
  - intros stars.
    destruct (Z.ltb_spec (Qfloor q) 0) as [Hneg|Hpos]; cbn [orb]; [discriminate|].
    destruct (Z.ltb_spec 5 (Qfloor q)) as [Hbig|Hsmall]; [discriminate|].
    intros [= <-]. exists (Z.to_nat (Qfloor q)).
    rewrite Z2Nat.id by exact Hpos. repeat split.
    + lia.
    + apply Qfloor_le.
    + change (q < inject_Z (Qfloor q) + inject_Z 1)%Q.
      rewrite <- (inject_Z_plus (Qfloor q) 1). apply Qlt_floor.
Qed.

Lemma sum_between (lo hi : Q) (ratings : list number) :
  Forall (fun r => exists q : Q, r = Fin q /\ (lo <= q)%Q /\ (q <= hi)%Q) ratings ->
  forall a : Q,
  exists s : Q,
    fold_left (fun acc rating => num_add acc rating) ratings (Fin a) = Fin s /\
    (a + inject_Z (Z.of_nat (length ratings)) * lo <= s)%Q /\
    (s <= a + inject_Z (Z.of_nat (length ratings)) * hi)%Q.
Proof.
  induction 1 as [|r l (q & -> & Hlo & Hhi) _ IH]; intros a.
  - exists a. cbn [fold_left length Z.of_nat]. change (inject_Z (Z.of_nat 0)) with 0%Q.
    repeat split; lra.
  - cbn [fold_left num_add].
    destruct (IH (Qred (a + q))) as (s & Hs & Hsl & Hsh).
    exists s. split; [exact Hs|].
    rewrite Qred_correct in Hsl, Hsh.
    cbn [length]. rewrite Nat2Z.inj_succ, <- Z.add_1_r, inject_Z_plus.
    change (inject_Z 1) with 1%Q.
    set (n := inject_Z (Z.of_nat (length l))) in *.
    assert (El : ((n + 1) * lo == n * lo + lo)%Q) by ring.
    assert (Eh : ((n + 1) * hi == n * hi + hi)%Q) by ring.
    rewrite El, Eh.
    split; lra.
Qed.

Lemma num_div_between (s lo hi : Q) (n : Z) :
  (0 < n)%Z ->
  (inject_Z n * lo <= s)%Q -> (s <= inject_Z n * hi)%Q ->
  exists q : Q, num_div (Fin s) (int n) = Fin q /\ (lo <= q)%Q /\ (q <= hi)%Q.
Proof.
  intros Hpos Hsl Hsh.
  assert (Hn : (0 < inject_Z n)%Q).
  { change 0%Q with (inject_Z 0). now rewrite <- Zlt_Qlt. }
  unfold int. cbn [num_div].
  assert (Hnz : Qeq_bool (inject_Z n) 0 = false).
  { destruct (Qeq_bool (inject_Z n) 0) eqn:E; [|reflexivity].
    apply Qeq_bool_eq in E. rewrite E in Hn. now apply Qlt_irrefl in Hn. }
  rewrite Hnz. eexists. split; [reflexivity|].
  rewrite Qred_correct. split.
  - apply Qle_shift_div_l; [exact Hn|]. lra.
  - apply Qle_shift_div_r; [exact Hn|]. lra.
Qed.

Lemma whole_ratings_between (lo hi : Z) (ratings : list number) :
  Forall (fun r => exists k : Z, r = int k /\ (lo <= k <= hi)%Z) ratings ->
  Forall (fun r => exists q : Q,
              r = Fin q /\ (inject_Z lo <= q)%Q /\ (q <= inject_Z hi)%Q) ratings.
Proof.
  intros H. eapply Forall_impl; [exact H|].
  intros r (k & -> & Hlo & Hhi). exists (inject_Z k).
  split; [reflexivity|]. now rewrite <- !Zle_Qle.
Qed.

(** X25. The ratings of the reviews are whole numbers, from [lo] to [hi],
    and few enough for their sum to stay within the whole numbers that the
    program adds without rounding, those up to 2^53.  Then the average of
    the ratings of a product with at least one review lies between [lo]
    and [hi]. *)
Theorem calculateAverageRating_between (lo hi : Z) (ratings : list number) :
  ratings <> [] ->
  Forall (fun r => exists k : Z, r = int k /\ (lo <= k <= hi)%Z) ratings ->
  (Z.of_nat (length ratings) * Z.max (Z.abs lo) (Z.abs hi) <= 2 ^ 53)%Z ->
  exists q : Q,
    calculateAverageRating ratings = Fin q /\
    (inject_Z lo <= q)%Q /\ (q <= inject_Z hi)%Q.
Proof.
  intros Hne Hall _. apply whole_ratings_between in Hall.
  unfold calculateAverageRating.
  destruct ratings as [|r l]; [congruence|].
  change (length (r :: l) =? 0)%nat with false. cbv iota.
  destruct (sum_between _ _ (r :: l) Hall 0) as (s & Hs & Hsl & Hsh).
  change (Fin 0) with (int 0) in Hs. rewrite Hs.
  apply num_div_between.
  - cbn [length]. lia.
  - lra.
  - lra.
Qed.

(** X25 on three reviews, of 4, 5 and 2 stars. *)
Lemma calculateAverageRating_between_witness :
  exists q : Q,
    calculateAverageRating [int 4; int 5; int 2] = Fin q /\
    (inject_Z 1 <= q)%Q /\ (q <= inject_Z 5)%Q.
Proof.
  apply (calculateAverageRating_between 1 5 [int 4; int 5; int 2]).
  - discriminate.
  - repeat constructor.
    + exists 4%Z. split; [reflexivity | lia].
    + exists 5%Z. split; [reflexivity | lia].
    + exists 2%Z. split; [reflexivity | lia].
  - vm_compute. discriminate.
Defined.

(** X26. The stars of the average always render when every rating is
    between 0 and 5, also for a product without reviews: the page shows
    five symbols, the full ones first. *)
Theorem average_rating_renders (ratings : list number) :
  Forall (fun r => exists q : Q, r = Fin q /\ (0 <= q)%Q /\ (q <= 5)%Q) ratings ->
  exists k : nat,
    (k <= 5)%nat /\
    renderStars (calculateAverageRating ratings) =
    Some (copies k full_star +:+ copies (5 - k) hollow_star).
Proof.
  intros Hall.
  assert (Havg : exists q : Q,
             calculateAverageRating ratings = Fin q /\ (0 <= q)%Q /\ (q <= 5)%Q).
  { unfold calculateAverageRating. destruct ratings as [|r l].
    - exists (inject_Z 0). repeat split; unfold Qle; simpl; lia.
    - change (length (r :: l) =? 0)%nat with false. cbv iota.
      destruct (sum_between 0 5 (r :: l) Hall 0) as (s & Hs & Hsl & Hsh).
      change (Fin 0) with (int 0) in Hs. rewrite Hs.
      apply num_div_between; [cbn [length]; lia | lra | lra]. }
  destruct Havg as (q & -> & Hlo & Hhi).
  rewrite renderStars_floor.
  assert (H0 : (0 <= Qfloor q)%Z).
  { destruct (Z.lt_ge_cases (Qfloor q) 0) as [Hlt|Hge]; [|lia].
    apply Qfloor_below in Hlt. exfalso. now apply (Qlt_not_le _ _ Hlt). }
  assert (H5 : (Qfloor q <= 5)%Z).
  { destruct (Z.lt_ge_cases (Qfloor q) 6) as [Hlt|Hge]; [lia|].
    exfalso. assert (H6 : (inject_Z 6 <= q)%Q).
    { apply Qle_trans with (inject_Z (Qfloor q)); [now rewrite <- Zle_Qle|apply Qfloor_le]. }
    assert (H56 : (inject_Z 5 < inject_Z 6)%Q) by (rewrite <- Zlt_Qlt; lia).
    change (inject_Z 5) with 5%Q in H56. lra. }
  destruct (Z.ltb_spec (Qfloor q) 0); [lia|].
  destruct (Z.ltb_spec 5 (Qfloor q)); [lia|].
  cbn [orb]. exists (Z.to_nat (Qfloor q)). split; [lia|reflexivity].
Qed.

Lemma average_rating_renders_witness :
  exists k : nat,
    (k <= 5)%nat /\
    renderStars (calculateAverageRating [int 4; int 5; int 2]) =
    Some (copies k full_star +:+ copies (5 - k) hollow_star).
Proof.
  apply (average_rating_renders [int 4; int 5; int 2]).
  repeat constructor.
  - exists (inject_Z 4). repeat split; unfold Qle; simpl; lia.
  - exists (inject_Z 5). repeat split; unfold Qle; simpl; lia.
  - exists (inject_Z 2). repeat split; unfold Qle; simpl; lia.
Defined.
